(** * The model router of [src/models/router.py]

    A shallow embedding of [ModelRouter]: the keyword classifier
    ([detect_task_type]), the registry lookup ([_get_model_config]), the
    selection policy ([select_model]), the dispatch ([chat_completion]) and
    the decoding of server-sent-event lines ([_extract_content] and the
    streaming loops of the two transports).

    Conventions of the embedding.
    - A Python [str] is a [string]; a character stands for a code point
      below 256, so [String.length] is Python's [len] and [lower] is [str.lower]
      on that range.
    - A Python value that comes out of the YAML configuration or out of
      [json.loads] is a [pyval]; a [dict] with string keys is an association
      list in insertion order ([pydict]).
    - A function that can raise returns a [result]; [try]/[except] is a
      match on it. *)

From Stdlib Require Import String Ascii List Bool Arith ZArith Lia.
Import ListNotations.
Open Scope string_scope.

(** ** Python strings *)

(** [str.lower] on one code point below 256: the letters [A]-[Z] and the
    Latin-1 capitals 192-222 (the multiplication sign 215 apart) move up
    by 32, everything else stays. *)
Definition lower_char (c : ascii) : ascii :=
  let n := nat_of_ascii c in
  if (((65 <=? n) && (n <=? 90)) ||
      ((192 <=? n) && (n <=? 222) && negb (n =? 215)))%nat
  then ascii_of_nat (n + 32)
  else c.

(** [s.lower()] *)
Fixpoint lower (s : string) : string :=
  match s with
  | EmptyString => EmptyString
  | String c s' => String (lower_char c) (lower s')
  end.

(** [line.startswith(p)] *)
Definition startswith (line p : string) : bool := prefix p line.

(** [sub in s] for two strings: [sub] starts at some position of [s]. *)
Fixpoint str_in (sub s : string) : bool :=
  prefix sub s ||
  match s with
  | EmptyString => false
  | String _ s' => str_in sub s'
  end.

(** [s[n:]] *)
Fixpoint str_from (n : nat) (s : string) : string :=
  match n, s with
  | O, _ => s
  | S _, EmptyString => EmptyString
  | S n', String _ s' => str_from n' s'
  end.

(** What "contains" means, independently of the search above. *)
Definition Substring (sub s : string) : Prop :=
  exists pre post, s = pre ++ sub ++ post.

(** ** The task classifier *)

Definition code_keywords : list string :=
  ["code"; "function"; "bug"; "error"; "python"; "javascript"; "typescript";
   "html"; "css"; "sql"; "api"; "database"].

Definition math_keywords : list string :=
  ["calculate"; "math"; "solve"; "equation"; "logic"; "reasoning"; "proof";
   "algorithm"].

Definition creative_keywords : list string :=
  ["write"; "story"; "poem"; "creative"; "essay"; "blog"; "article"; "draft"].

(** [any(kw in text for kw in kws)] *)
Definition any_kw_in (kws : list string) (text : string) : bool :=
  existsb (fun kw => str_in kw text) kws.

Definition detect_task_type (message : string) : string :=
  let message_lower := lower message in
  if any_kw_in code_keywords message_lower then "coding"
  else if any_kw_in math_keywords message_lower then "reasoning"
  else if any_kw_in creative_keywords message_lower then "creative_writing"
  else if (4000 <? String.length message)%nat then "long_context"
  else if (String.length message <? 50)%nat && str_in "?" message then "fast_responses"
  else "default".

(** The closed set of categories. *)
Definition task_categories : list string :=
  ["coding"; "reasoning"; "creative_writing"; "long_context"; "fast_responses";
   "default"].

(** The lowercased message contains one of the keywords. *)
Definition mentions (kws : list string) (message : string) : Prop :=
  exists kw, In kw kws /\ Substring kw (lower message).

(** ** Python values, dictionaries and exceptions *)

(** The values [yaml.safe_load] and [json.loads] build: [None], booleans,
    integers, floats (kept as their binary64 bit pattern), strings, lists and
    dictionaries with string keys. *)
#[local] Unset Elimination Schemes.
Inductive pyval : Type :=
| PNone
| PBool (b : bool)
| PInt (z : Z)
| PFloat (bits : Z)
| PStr (s : string)
| PList (l : list pyval)
| PDict (d : list (string * pyval)).
#[local] Set Elimination Schemes.

(** [Dict[str, Any]], in insertion order. *)
Definition pydict : Type := list (string * pyval).

Inductive exn : Type :=
| ValueError (msg : string)
| JSONDecodeError
| KeyError
| IndexError
| TypeError
| AttributeError.

Inductive result (A : Type) : Type :=
| Ok (a : A)
| Raise (e : exn).
Arguments Ok {A} a.
Arguments Raise {A} e.

Definition bind {A B : Type} (r : result A) (k : A -> result B) : result B :=
  match r with
  | Ok a => k a
  | Raise e => Raise e
  end.

Notation "'let*' x ':=' r 'in' k" := (bind r (fun x => k))
  (at level 61, x name, r at next level, right associativity).

(** [d.get(k)] on an association list: the first binding of [k]. *)
Fixpoint dict_get {V : Type} (d : list (string * V)) (k : string) : option V :=
  match d with
  | [] => None
  | (k', v) :: d' => if k' =? k then Some v else dict_get d' k
  end.

(** [k in d] *)
Definition dict_mem {V : Type} (d : list (string * V)) (k : string) : bool :=
  match dict_get d k with
  | Some _ => true
  | None => false
  end.

(** [d[k] = v]: an existing key keeps its place, a new one goes last. *)
Fixpoint dict_set {V : Type} (d : list (string * V)) (k : string) (v : V)
  : list (string * V) :=
  match d with
  | [] => [(k, v)]
  | (k', v') :: d' =>
      if k' =? k then (k', v) :: d' else (k', v') :: dict_set d' k v
  end.

(** [{**d, **e}]: the bindings of [e] are written into [d] one by one. *)
Definition dict_update {V : Type} (d e : list (string * V)) : list (string * V) :=
  fold_left (fun acc kv => dict_set acc (fst kv) (snd kv)) e d.

(** [v == s] for a string [s] *)
Definition py_eq_str (v : pyval) (s : string) : bool :=
  match v with
  | PStr s' => s' =? s
  | _ => false
  end.

(** [bool(v)] *)
Definition truthy (v : pyval) : bool :=
  match v with
  | PNone => false
  | PBool b => b
  | PInt z => negb (z =? 0)%Z
  | PFloat bits => negb (bits =? 0)%Z && negb (bits =? 2 ^ 63)%Z
  | PStr s => negb (s =? "")
  | PList l => match l with [] => false | _ :: _ => true end
  | PDict d => match d with [] => false | _ :: _ => true end
  end.

(** [v.get(k, dflt)]: only a dictionary has [get]. *)
Definition py_get (v : pyval) (k : string) (dflt : pyval) : result pyval :=
  match v with
  | PDict d => Ok (match dict_get d k with Some x => x | None => dflt end)
  | _ => Raise AttributeError
  end.

(** [v[k]] for a string [k] *)
Definition py_item (v : pyval) (k : string) : result pyval :=
  match v with
  | PDict d => match dict_get d k with Some x => Ok x | None => Raise KeyError end
  | _ => Raise TypeError
  end.

(** [v[0]] *)
Definition py_item0 (v : pyval) : result pyval :=
  match v with
  | PList (x :: _) => Ok x
  | PList [] => Raise IndexError
  | PStr (String c _) => Ok (PStr (String c ""))
  | PStr "" => Raise IndexError
  | PDict _ => Raise KeyError
  | _ => Raise TypeError
  end.

(** [s in v] for a string [s]: a key of a dictionary, an element of a list,
    a substring of a string. *)
Definition py_has (s : string) (v : pyval) : result bool :=
  match v with
  | PDict d => Ok (dict_mem d s)
  | PList l => Ok (existsb (fun x => py_eq_str x s) l)
  | PStr t => Ok (str_in s t)
  | _ => Raise TypeError
  end.

(** [v.items()] *)
Definition py_items (v : pyval) : result pydict :=
  match v with
  | PDict d => Ok d
  | _ => Raise AttributeError
  end.

(** [{**base, **v}]: [v] has to be a mapping. *)
Definition py_spread (base : pydict) (v : pyval) : result pydict :=
  match v with
  | PDict d => Ok (dict_update base d)
  | _ => Raise TypeError
  end.

(** ** The router and its configuration *)

(** The document [yaml.safe_load] returns, read at the types the
    constructor and the annotations of the methods give it: model
    identifiers are strings, the provider table and the auto-switch table are
    dictionaries of arbitrary values, a routing entry maps ["primary"] and
    ["fallback"] to identifiers. A key that is absent is [None]. *)
Record Config : Type := {
  cfg_default_model : option string;
  cfg_providers : option pydict;
  cfg_task_routing : option (list (string * list (string * string)));
  cfg_auto_switch : option pydict
}.

Record ModelRouter : Type := {
  default_model : string;
  providers : pydict;
  task_routing : list (string * list (string * string));
  auto_switch : pydict
}.

(** [config.get(key, dflt)] *)
Definition get_or {A : Type} (o : option A) (dflt : A) : A :=
  match o with
  | Some a => a
  | None => dflt
  end.

(** [ModelRouter.__init__], after [_load_config]. *)
Definition __init__ (config : Config) : ModelRouter := {|
  default_model := get_or (cfg_default_model config) "kimi-k2.5";
  providers := get_or (cfg_providers config) [];
  task_routing := get_or (cfg_task_routing config) [];
  auto_switch := get_or (cfg_auto_switch config) []
|}.

(** [ValueError(f"Model not found: {model_id}")] *)
Definition ModelNotFound (model_id : string) : exn :=
  ValueError ("Model not found: " ++ model_id).

(** The Moonshot branch of [_get_model_config]: [Ok None] when the branch
    falls through to the next check. *)
Definition check_moonshot (self : ModelRouter) (model_id : string)
  : result (option pydict) :=
  match dict_get (providers self) "moonshot" with
  | Some moonshot =>
      let* moonshot_models := py_get moonshot "models" (PDict []) in
      let* found := py_has model_id moonshot_models in
      if found then
        let* entry := py_item moonshot_models model_id in
        let* cfg :=
          py_spread [("provider", PStr "moonshot"); ("provider_config", moonshot)]
                    entry in
        Ok (Some cfg)
      else Ok None
  | None => Ok None
  end.

(** [for key, config in or_models.items(): ...] *)
Fixpoint scan_openrouter (openrouter : pyval) (model_id : string)
  (items : pydict) : result (option pydict) :=
  match items with
  | [] => Ok None
  | (key, config) :: rest =>
      let* id := py_get config "id" PNone in
      if py_eq_str id model_id || (key =? model_id) then
        let* cfg :=
          py_spread [("provider", PStr "openrouter");
                     ("provider_config", openrouter)] config in
        Ok (Some cfg)
      else scan_openrouter openrouter model_id rest
  end.

(** The OpenRouter branch of [_get_model_config]. *)
Definition check_openrouter (self : ModelRouter) (model_id : string)
  : result (option pydict) :=
  match dict_get (providers self) "openrouter" with
  | Some openrouter =>
      let* or_models := py_get openrouter "models" (PDict []) in
      let* items := py_items or_models in
      scan_openrouter openrouter model_id items
  | None => Ok None
  end.

Definition _get_model_config (self : ModelRouter) (model_id : string)
  : result pydict :=
  let* m := check_moonshot self model_id in
  match m with
  | Some cfg => Ok cfg
  | None =>
      let* o := check_openrouter self model_id in
      match o with
      | Some cfg => Ok cfg
      | None => Raise (ModelNotFound model_id)
      end
  end.

(** [if preferred_model:] on an [Optional[str]]: [None] and the empty string
    are false. *)
Definition preferred_truthy (preferred_model : option string) : bool :=
  match preferred_model with
  | Some m => negb (m =? "")
  | None => false
  end.

(** [self.auto_switch.get("enabled", True)], as a condition. *)
Definition auto_switch_enabled (self : ModelRouter) : bool :=
  truthy (get_or (dict_get (auto_switch self) "enabled") (PBool true)).

Definition select_model (self : ModelRouter) (message : string)
  (preferred_model : option string) : result pydict :=
  if preferred_truthy preferred_model then
    _get_model_config self (get_or preferred_model "")
  else if negb (auto_switch_enabled self) then
    _get_model_config self (default_model self)
  else
    let task_type := detect_task_type message in
    let routing := get_or (dict_get (task_routing self) task_type) [] in
    let primary_id := get_or (dict_get routing "primary") (default_model self) in
    let fallback_id := get_or (dict_get routing "fallback") (default_model self) in
    match _get_model_config self primary_id with
    | Ok cfg => Ok cfg
    | Raise _ => _get_model_config self fallback_id
    end.

(** The pair of identifiers the routing policy holds for a category: the
    entry's own, and the default model for what the entry (or the whole
    entry) leaves out. *)
Definition policy_ids (self : ModelRouter) (category : string)
  : string * string :=
  match dict_get (task_routing self) category with
  | Some entry =>
      (get_or (dict_get entry "primary") (default_model self),
       get_or (dict_get entry "fallback") (default_model self))
  | None => (default_model self, default_model self)
  end.

(** ** Decoding the provider's reply *)

(** What the HTTP client hands back: the lines of a streamed body
    ([response.aiter_lines()]) and the decoded body of a plain one
    ([response.json()], [None] when decoding raises). *)
Record HttpResponse : Type := {
  aiter_lines : list string;
  json : option pyval
}.

Section Transport.

(** [json.loads], [None] when it raises; [os.getenv]. *)
Variable json_loads : string -> option pyval.
Variable getenv : string -> option string.

(** The body of the [try] block of [_extract_content]. *)
Definition extract_try (data : string) : result pyval :=
  let* parsed :=
    match json_loads data with
    | Some parsed => Ok parsed
    | None => Raise JSONDecodeError
    end in
  let* choices := py_item parsed "choices" in
  let* choice := py_item0 choices in
  let* delta := py_get choice "delta" (PDict []) in
  py_get delta "content" (PStr "").

Definition _extract_content (data : string) : pyval :=
  match extract_try data with
  | Ok content => content
  | Raise _ => PStr ""
  end.

(** [async for line in response.aiter_lines(): ...], the loop both
    transports run in streaming mode: the fragments it yields, in order. *)
Fixpoint stream_loop (lines : list string) : list pyval :=
  match lines with
  | [] => []
  | line :: rest =>
      if startswith line "data: " then
        let data := str_from 6 line in
        if data =? "[DONE]" then []
        else _extract_content data :: stream_loop rest
      else stream_loop rest
  end.

(** [data["choices"][0]["message"]["content"]] of a plain reply. *)
Definition message_content (response : HttpResponse) : result pyval :=
  let* data :=
    match json response with
    | Some data => Ok data
    | None => Raise JSONDecodeError
    end in
  let* choices := py_item data "choices" in
  let* choice := py_item0 choices in
  let* message := py_item choice "message" in
  py_item message "content".

Definition get_api_key (self : ModelRouter) (provider : string)
  : result string :=
  let* provider_config := py_item (PDict (providers self)) provider in
  let* env_var := py_item provider_config "api_key_env" in
  match env_var with
  | PStr name =>
      match getenv name with
      | Some api_key =>
          if api_key =? "" then Raise (ValueError ("Missing API key: " ++ name))
          else Ok api_key
      | None => Raise (ValueError ("Missing API key: " ++ name))
      end
  | _ => Raise TypeError
  end.

(** The body shared by [_call_moonshot] and [_call_openrouter], which differ
    in the provider whose key is read and in the headers they send. The
    request (URL, headers, payload) is not modelled, the reply is given:
    what remains is every lookup that can raise before the request goes
    out, then the fragments read off the reply. *)
Definition call_provider (self : ModelRouter) (provider : string)
  (response : HttpResponse) (model_config : pydict) (stream : bool)
  : result (list pyval) :=
  let* api_key := get_api_key self provider in
  let* provider_config := py_item (PDict model_config) "provider_config" in
  let* base_url := py_item provider_config "base_url" in
  let* model := py_item (PDict model_config) "id" in
  if stream then Ok (stream_loop (aiter_lines response))
  else
    let* content := message_content response in
    Ok [content].

Definition _call_moonshot (self : ModelRouter) (response : HttpResponse)
  (model_config : pydict) (stream : bool) : result (list pyval) :=
  call_provider self "moonshot" response model_config stream.

Definition _call_openrouter (self : ModelRouter) (response : HttpResponse)
  (model_config : pydict) (stream : bool) : result (list pyval) :=
  call_provider self "openrouter" response model_config stream.

(** [chat_completion]: the chunks it yields; falling through both
    branches yields none. *)
Definition chat_completion (self : ModelRouter) (response : HttpResponse)
  (message : string) (model : option string) (stream : bool)
  : result (list pyval) :=
  let* model_config := select_model self message model in
  let* provider := py_item (PDict model_config) "provider" in
  if py_eq_str provider "moonshot" then
    _call_moonshot self response model_config stream
  else if py_eq_str provider "openrouter" then
    _call_openrouter self response model_config stream
  else Ok [].

End Transport.

(** The content the reply format nests in a parsed payload: the value under
    ["content"] in the object under ["delta"] in the first element of the
    array under ["choices"] of an object. *)
Definition nested_content (parsed : pyval) : option pyval :=
  match parsed with
  | PDict top =>
      match dict_get top "choices" with
      | Some (PList (PDict choice :: _)) =>
          match dict_get choice "delta" with
          | Some (PDict delta) => dict_get delta "content"
          | _ => None
          end
      | _ => None
      end
  | _ => None
  end.

(** ** Vocabulary of the statements *)

Definition is_dict (v : pyval) : bool :=
  match v with
  | PDict _ => true
  | _ => false
  end.

(** The catalog of a provider, when the provider is a mapping whose
    ["models"] is a mapping. *)
Definition catalog (provider : pyval) : pydict :=
  match provider with
  | PDict fields =>
      match dict_get fields "models" with
      | Some (PDict models) => models
      | _ => []
      end
  | _ => []
  end.

(** A provider is well formed when it is a mapping and its ["models"], if
    present, is a mapping of mappings. *)
Definition provider_ok (provider : pyval) : bool :=
  match provider with
  | PDict fields =>
      match dict_get fields "models" with
      | Some (PDict models) => forallb (fun kv => is_dict (snd kv)) models
      | Some _ => false
      | None => true
      end
  | _ => false
  end.

(** The two providers the lookup reads are well formed (or absent). *)
Definition registry_ok (self : ModelRouter) : bool :=
  match dict_get (providers self) "moonshot" with
  | Some p => provider_ok p
  | None => true
  end &&
  match dict_get (providers self) "openrouter" with
  | Some p => provider_ok p
  | None => true
  end.

(** [model_id] is a key of the provider's catalog. *)
Definition has_key (provider : pyval) (model_id : string) : bool :=
  dict_mem (catalog provider) model_id.

(** [model_id] is the ["id"] value of an entry of the provider's catalog. *)
Definition has_id (provider : pyval) (model_id : string) : bool :=
  existsb (fun kv =>
             match snd kv with
             | PDict entry =>
                 match dict_get entry "id" with
                 | Some v => py_eq_str v model_id
                 | None => false
                 end
             | _ => false
             end) (catalog provider).

(** [model_id] names a model the lookup can reach: a key of moonshot's
    catalog, a key of openrouter's catalog or the ["id"] of one of
    openrouter's entries. *)
Definition registered (self : ModelRouter) (model_id : string) : bool :=
  match dict_get (providers self) "moonshot" with
  | Some moonshot => has_key moonshot model_id
  | None => false
  end ||
  match dict_get (providers self) "openrouter" with
  | Some openrouter =>
      has_key openrouter model_id || has_id openrouter model_id
  | None => false
  end.

(** Lookup in registration order, as section 4.1 of the specification words
    it: the providers are examined in the order the configuration lists
    them, and the first one whose catalog registers the key wins. *)
Fixpoint first_registered (registry : pydict) (model_id : string)
  : option string :=
  match registry with
  | [] => None
  | (name, provider) :: rest =>
      if has_key provider model_id then Some name
      else first_registered rest model_id
  end.

(** The ["provider"] field of a lookup's result. *)
Definition provider_of (r : result pydict) : result pyval :=
  let* cfg := r in py_item (PDict cfg) "provider".

(** ** Sample configurations *)

Definition moonshot_provider : pyval :=
  PDict [("base_url", PStr "https://api.moonshot.cn/v1");
         ("api_key_env", PStr "MOONSHOT_API_KEY");
         ("models",
          PDict [("kimi-k2.5",
                  PDict [("id", PStr "kimi-k2.5"); ("max_tokens", PInt 8192)]);
                 ("kimi-long",
                  PDict [("id", PStr "moonshot-v1-128k")]);
                 ("shared", PDict [("id", PStr "moonshot-v1-8k")])])].

Definition openrouter_provider : pyval :=
  PDict [("base_url", PStr "https://openrouter.ai/api/v1");
         ("api_key_env", PStr "OPENROUTER_API_KEY");
         ("models",
          PDict [("claude-sonnet",
                  PDict [("id", PStr "anthropic/claude-3.5-sonnet")]);
                 ("shared", PDict [("id", PStr "openai/gpt-4o")])])].

Definition groq_provider : pyval :=
  PDict [("base_url", PStr "https://api.groq.com/openai/v1");
         ("api_key_env", PStr "GROQ_API_KEY");
         ("models", PDict [("llama", PDict [("id", PStr "llama-3.1-70b")])])].

(** An OpenRouter catalog whose entry records the upstream vendor under
    the key ["provider"]. *)
Definition openrouter_with_vendor : pyval :=
  PDict [("base_url", PStr "https://openrouter.ai/api/v1");
         ("api_key_env", PStr "OPENROUTER_API_KEY");
         ("models",
          PDict [("claude-sonnet",
                  PDict [("id", PStr "anthropic/claude-3.5-sonnet");
                         ("provider", PStr "anthropic")])])].

Definition sample_routing : list (string * list (string * string)) :=
  [("coding", [("primary", "claude-sonnet"); ("fallback", "kimi-k2.5")]);
   ("reasoning", [("primary", "o1-preview"); ("fallback", "kimi-long")]);
   ("long_context", [("primary", "gemini-pro"); ("fallback", "gpt-5")])].

Definition sample_config (registry : pydict) (enabled : bool) : Config := {|
  cfg_default_model := Some "kimi-k2.5";
  cfg_providers := Some registry;
  cfg_task_routing := Some sample_routing;
  cfg_auto_switch := Some [("enabled", PBool enabled)]
|}.

(** Moonshot listed first. *)
Definition router_moonshot_first (enabled : bool) : ModelRouter :=
  __init__ (sample_config [("moonshot", moonshot_provider);
                       ("openrouter", openrouter_provider)] enabled).

(** OpenRouter listed first. *)
Definition router_openrouter_first : ModelRouter :=
  __init__ (sample_config [("openrouter", openrouter_provider);
                       ("moonshot", moonshot_provider)] true).

(** A third provider next to the two. *)
Definition router_with_groq : ModelRouter :=
  __init__ (sample_config [("moonshot", moonshot_provider);
                       ("openrouter", openrouter_provider);
                       ("groq", groq_provider)] true).

Definition router_with_vendor : ModelRouter :=
  __init__ (sample_config [("openrouter", openrouter_with_vendor)] true).

Definition dq : string := String (ascii_of_nat 34) "".

(** The text of [{"choices":[{"delta":{"content":"Hi"}}]}]. *)
Definition payload_hi : string :=
  "{" ++ dq ++ "choices" ++ dq ++ ":[{" ++ dq ++ "delta" ++ dq ++ ":{" ++ dq
  ++ "content" ++ dq ++ ":" ++ dq ++ "Hi" ++ dq ++ "}}]}".

Definition parsed_hi : pyval :=
  PDict [("choices",
          PList [PDict [("delta", PDict [("content", PStr "Hi")])]])].

(** A decoder that knows [payload_hi] and rejects every other text: enough
    of [json.loads] to run the loop on a sample. *)
Definition sample_loads (data : string) : option pyval :=
  if data =? payload_hi then Some parsed_hi else None.

Definition sample_getenv (name : string) : option string :=
  if (name =? "MOONSHOT_API_KEY") || (name =? "OPENROUTER_API_KEY")
  then Some "sk-sample" else None.

Definition sample_lines : list string :=
  [": keep-alive"; "data: " ++ payload_hi; "data: [DONE]";
   "data: " ++ payload_hi].

(** ** The request *)

(** The [payload] dictionary of both transports. *)
Definition request_payload (message : string) (model_config : pydict)
  (stream : bool) : result pydict :=
  let* model := py_item (PDict model_config) "id" in
  let* max_tokens := py_get (PDict model_config) "max_tokens" (PInt 4096) in
  Ok [("model", model);
      ("messages",
       PList [PDict [("role", PStr "user"); ("content", PStr message)]]);
      ("stream", PBool stream);
      ("max_tokens", max_tokens)].

(** The [headers] dictionary of [_call_moonshot]. *)
Definition moonshot_headers (api_key : string) : list (string * string) :=
  [("Authorization", "Bearer " ++ api_key);
   ("Content-Type", "application/json")].

(** The [headers] dictionary of [_call_openrouter]. *)
Definition openrouter_headers (api_key : string) : list (string * string) :=
  [("Authorization", "Bearer " ++ api_key);
   ("Content-Type", "application/json");
   ("HTTP-Referer", "https://clawdbot.app");
   ("X-Title", "Clawdbot")].

(** What a transport hands to the HTTP client: the base URL (to which
    ["/chat/completions"] is appended), the headers and the JSON body. *)
Record Request : Type := {
  request_base_url : pyval;
  request_headers : list (string * string);
  request_json : pydict
}.

Section Requests.

Variable getenv : string -> option string.

(** The statements of a transport up to the HTTP call, in their order. *)
Definition build_request (self : ModelRouter) (provider : string)
  (headers : string -> list (string * string)) (message : string)
  (model_config : pydict) (stream : bool) : result Request :=
  let* api_key := get_api_key getenv self provider in
  let* provider_config := py_item (PDict model_config) "provider_config" in
  let* base_url := py_item provider_config "base_url" in
  let* payload := request_payload message model_config stream in
  Ok {| request_base_url := base_url;
        request_headers := headers api_key;
        request_json := payload |}.

Definition moonshot_request (self : ModelRouter) (message : string)
  (model_config : pydict) (stream : bool) : result Request :=
  build_request self "moonshot" moonshot_headers message model_config stream.

Definition openrouter_request (self : ModelRouter) (message : string)
  (model_config : pydict) (stream : bool) : result Request :=
  build_request self "openrouter" openrouter_headers message model_config
    stream.

End Requests.

(** ** More vocabulary *)

(** A Python dictionary binds a key once. *)
Fixpoint unique_keys {V : Type} (d : list (string * V)) : bool :=
  match d with
  | [] => true
  | (k, _) :: d' => negb (dict_mem d' k) && unique_keys d'
  end.

(** The line that ends a stream. *)
Definition is_done_line (line : string) : bool :=
  startswith line "data: " && (str_from 6 line =? "[DONE]").

(** The content the reply format nests in a plain (non-streamed) body: the
    value under ["content"] in the object under ["message"] in the first
    element of the array under ["choices"] of an object. *)
Definition nested_message (data : pyval) : option pyval :=
  match data with
  | PDict top =>
      match dict_get top "choices" with
      | Some (PList (PDict choice :: _)) =>
          match dict_get choice "message" with
          | Some (PDict message) => dict_get message "content"
          | _ => None
          end
      | _ => None
      end
  | _ => None
  end.

(** The test of the OpenRouter loop on one item of the catalog:
    [config.get("id") == model_id or key == model_id]. *)
Definition entry_matches (model_id : string) (item : string * pyval) : bool :=
  (fst item =? model_id) ||
  match snd item with
  | PDict entry =>
      match dict_get entry "id" with
      | Some v => py_eq_str v model_id
      | None => false
      end
  | _ => false
  end.

(** An OpenRouter catalog in which one identifier is the ["id"] of an
    entry and the key of a later one. *)
Definition openrouter_ambiguous : pyval :=
  PDict [("base_url", PStr "https://openrouter.ai/api/v1");
         ("api_key_env", PStr "OPENROUTER_API_KEY");
         ("models",
          PDict [("claude-sonnet",
                  PDict [("id", PStr "anthropic/claude-3.5-sonnet")]);
                 ("gpt", PDict [("id", PStr "openai/gpt-4o")]);
                 ("openai/gpt-4o", PDict [("id", PStr "openai/gpt-4o-mini")])])].

Definition router_ambiguous : ModelRouter :=
  __init__ (sample_config [("openrouter", openrouter_ambiguous)] true).

(** A moonshot catalog whose entry has no ["id"]. *)
Definition entry_without_id : pyval :=
  PDict [("base_url", PStr "https://api.moonshot.cn/v1");
         ("api_key_env", PStr "MOONSHOT_API_KEY");
         ("models", PDict [("draft", PDict [("max_tokens", PInt 1024)])])].

Definition router_without_id : ModelRouter :=
  __init__ (sample_config [("moonshot", entry_without_id)] true).

(** The text of [{"choices":[{"message":{"content":"Hello"}}]}], parsed. *)
Definition body_hello : pyval :=
  PDict [("choices",
          PList [PDict [("message", PDict [("content", PStr "Hello")])]])].

(** ** Proof automation *)

(** The goal is a disjunction whose right side says that the computation
    raises, and it does. *)
Ltac raised := right; eexists; reflexivity.

(** ** Facts about strings *)

Lemma prefix_iff_app (p s : string) :
  prefix p s = true <-> exists post, s = p ++ post.
Proof.
  revert s. induction p as [|c p IH]; intros s; simpl.
  - destruct s; split; intros; try reflexivity; eexists; reflexivity.
  - destruct s as [|d s]; simpl.
    + split; [discriminate | intros [post H]; discriminate].
    + destruct (ascii_dec c d) as [->|Hne].
      * rewrite IH. split; intros [post H]; exists post.
        -- now rewrite H.
        -- now inversion H.
      * split; [discriminate | intros [post H]; congruence].
Qed.

Lemma str_in_iff (sub s : string) : str_in sub s = true <-> Substring sub s.
Proof.
  unfold Substring. induction s as [|c s IH].
  - cbn [str_in]. rewrite orb_false_r, prefix_iff_app. split.
    + intros [post H]. exists "", post. exact H.
    + intros [pre [post H]]. destruct pre; simpl in H.
      * now exists post.
      * discriminate.
  - cbn [str_in]. rewrite orb_true_iff, IH, prefix_iff_app. split.
    + intros [[post H] | [pre [post H]]].
      * exists "", post. exact H.
      * exists (String c pre), post. simpl. now rewrite H.
    + intros [pre [post H]]. destruct pre as [|d pre]; simpl in H.
      * left. now exists post.
      * right. inversion H. now exists pre, post.
Qed.

Lemma any_kw_in_iff (kws : list string) (text : string) :
  any_kw_in kws text = true <-> exists kw, In kw kws /\ Substring kw text.
Proof.
  unfold any_kw_in. rewrite existsb_exists.
  split; intros [kw [Hin H]]; exists kw; split; auto; now apply str_in_iff.
Qed.

Lemma mentions_iff (kws : list string) (message : string) :
  any_kw_in kws (lower message) = true <-> mentions kws message.
Proof. apply any_kw_in_iff. Qed.


(** ** The classifier *)

(** C1: the classifier is total, returns one of the six categories, and
    decides in strict priority order: a coding keyword in the lowercased
    message gives "coding" whatever the length and the question marks; else
    a math keyword gives "reasoning"; else a creative keyword gives
    "creative_writing"; else a length above 4000 gives "long_context"; else
    a length under 50 together with a question mark gives "fast_responses";
    else "default". *)
Theorem detect_task_type_priority (message : string) :
  In (detect_task_type message) task_categories /\
  (mentions code_keywords message -> detect_task_type message = "coding") /\
  (~ mentions code_keywords message -> mentions math_keywords message ->
   detect_task_type message = "reasoning") /\
  (~ mentions code_keywords message -> ~ mentions math_keywords message ->
   mentions creative_keywords message ->
   detect_task_type message = "creative_writing") /\
  (~ mentions code_keywords message -> ~ mentions math_keywords message ->
   ~ mentions creative_keywords message ->
   (4000 < String.length message)%nat ->
   detect_task_type message = "long_context") /\
  (~ mentions code_keywords message -> ~ mentions math_keywords message ->
   ~ mentions creative_keywords message ->
   (String.length message <= 4000)%nat ->
   (String.length message < 50)%nat -> Substring "?" message ->
   detect_task_type message = "fast_responses") /\
  (~ mentions code_keywords message -> ~ mentions math_keywords message ->
   ~ mentions creative_keywords message ->
   (String.length message <= 4000)%nat ->
   ~ ((String.length message < 50)%nat /\ Substring "?" message) ->
   detect_task_type message = "default").
Proof.
  unfold detect_task_type, task_categories.
  rewrite <- !mentions_iff, <- str_in_iff.
  destruct (any_kw_in code_keywords (lower message));
    destruct (any_kw_in math_keywords (lower message));
    destruct (any_kw_in creative_keywords (lower message));
    destruct (Nat.ltb_spec 4000 (String.length message));
    destruct (Nat.ltb_spec (String.length message) 50);
    destruct (str_in "?" message);
    cbn [andb In];
    repeat split; intros;
    try reflexivity; try congruence; try lia; try tauto.
Qed.

Lemma detect_task_type_priority_witness :
  detect_task_type "Is there a BUG?" = "coding".
Proof.
  apply (proj1 (proj2 (detect_task_type_priority "Is there a BUG?"))).
  exists "bug". split.
  - simpl. tauto.
  - exists "is there a ", "?". reflexivity.
Defined.

Example classify_short_question : detect_task_type "Is this ok?" = "fast_responses".
Proof. reflexivity. Qed.

Example classify_plain : detect_task_type "hello there" = "default".
Proof. reflexivity. Qed.

(** ** The streaming loop and the extraction of content *)

Section TransportFacts.

Variable json_loads : string -> option pyval.
Variable getenv : string -> option string.

Lemma stream_loop_cons_data (data : string) (rest : list string) :
  data <> "[DONE]" ->
  stream_loop json_loads (("data: " ++ data) :: rest) =
  _extract_content json_loads data :: stream_loop json_loads rest.
Proof.
  intros Hne. apply String.eqb_neq in Hne.
  cbn [stream_loop]. unfold startswith. simpl.
  replace (prefix "" data) with true by now destruct data.
  now rewrite Hne.
Qed.

Lemma stream_loop_done (pre post : list string) :
  stream_loop json_loads (pre ++ "data: [DONE]" :: post) =
  stream_loop json_loads pre.
Proof.
  induction pre as [|line pre IH].
  - reflexivity.
  - cbn [app stream_loop].
    destruct (startswith line "data: "); [|exact IH].
    destruct (str_from 6 line =? "[DONE]"); [reflexivity|].
    now rewrite IH.
Qed.

Lemma stream_loop_skip (pre post : list string) (line : string) :
  startswith line "data: " = false ->
  stream_loop json_loads (pre ++ line :: post) =
  stream_loop json_loads (pre ++ post).
Proof.
  intros Hline. induction pre as [|l pre IH].
  - cbn [app stream_loop]. now rewrite Hline.
  - cbn [app stream_loop].
    destruct (startswith l "data: "); [|exact IH].
    destruct (str_from 6 l =? "[DONE]"); [reflexivity|].
    now rewrite IH.
Qed.

Lemma call_provider_stream (self : ModelRouter) (provider : string)
  (lines1 lines2 : list string) (j : option pyval) (cfg : pydict) :
  stream_loop json_loads lines1 = stream_loop json_loads lines2 ->
  call_provider json_loads getenv self provider
    {| aiter_lines := lines1; json := j |} cfg true =
  call_provider json_loads getenv self provider
    {| aiter_lines := lines2; json := j |} cfg true.
Proof.
  intros H. unfold call_provider. cbn [aiter_lines]. now rewrite H.
Qed.

(** C7: in streaming mode a line that does not start with "data: " is
    passed over; the line whose payload is "[DONE]" ends the sequence
    without a fragment of its own, and nothing that follows it is read:
    the fragments of [pre ++ "data: [DONE]" :: post] are those of [pre],
    for the loop and for both transports. *)
Theorem done_ends_stream (pre post : list string) :
  stream_loop json_loads (pre ++ "data: [DONE]" :: post) =
  stream_loop json_loads pre /\
  (forall line, startswith line "data: " = false ->
     stream_loop json_loads (pre ++ line :: post) =
     stream_loop json_loads (pre ++ post)) /\
  (forall self j cfg,
     _call_moonshot json_loads getenv self
       {| aiter_lines := pre ++ "data: [DONE]" :: post; json := j |} cfg true =
     _call_moonshot json_loads getenv self
       {| aiter_lines := pre; json := j |} cfg true /\
     _call_openrouter json_loads getenv self
       {| aiter_lines := pre ++ "data: [DONE]" :: post; json := j |} cfg true =
     _call_openrouter json_loads getenv self
       {| aiter_lines := pre; json := j |} cfg true).
Proof.
  split; [apply stream_loop_done|].
  split; [intros line; apply stream_loop_skip|].
  intros self j cfg.
  split; apply call_provider_stream, stream_loop_done.
Qed.

Lemma extract_try_nested (data : string) (parsed content : pyval) :
  json_loads data = Some parsed ->
  nested_content parsed = Some content ->
  extract_try json_loads data = Ok content.
Proof.
  intros Hload Hnest. unfold extract_try. rewrite Hload. cbn [bind].
  unfold nested_content in Hnest.
  destruct parsed as [| | | | | |top]; try discriminate.
  cbn [py_item].
  destruct (dict_get top "choices") as [[| | | | |[|[| | | | | |choice] ?]|]|];
    try discriminate.
  cbn [bind py_item0 py_get].
  destruct (dict_get choice "delta") as [[| | | | | |delta]|]; try discriminate.
  cbn [bind py_get]. now rewrite Hnest.
Qed.

Lemma extract_try_absent (data : string) (parsed : pyval) :
  json_loads data = Some parsed ->
  nested_content parsed = None ->
  extract_try json_loads data = Ok (PStr "") \/
  exists e, extract_try json_loads data = Raise e.
Proof.
  intros Hload Hnest. unfold extract_try. rewrite Hload. cbn [bind].
  unfold nested_content in Hnest.
  destruct parsed as [| | | | | |top]; try raised.
  cbn [py_item].
  destruct (dict_get top "choices") as [choices|]; [|raised].
  cbn [bind].
  destruct choices as [| | | |[|? ?]|[|choice ?]|]; try raised.
  destruct choice as [| | | | | |choice]; try raised.
  cbn [bind py_item0 py_get].
  destruct (dict_get choice "delta") as [delta|]; [|now left].
  destruct delta as [| | | | | |delta]; try raised.
  cbn [bind py_get]. rewrite Hnest. now left.
Qed.

(** C8: extraction never raises. A payload that parses and nests a
    content under choices[0].delta gives that content; a payload that does
    not parse, or parses without that field, gives the empty string. In
    the loop such a frame yields its fragment and the rest of the lines is
    still read. *)
Theorem extract_content_total (data : string) :
  _extract_content json_loads data =
  match json_loads data with
  | Some parsed => get_or (nested_content parsed) (PStr "")
  | None => PStr ""
  end /\
  (forall rest, data <> "[DONE]" ->
     stream_loop json_loads (("data: " ++ data) :: rest) =
     _extract_content json_loads data :: stream_loop json_loads rest).
Proof.
  split; [|intros rest; now apply stream_loop_cons_data].
  unfold _extract_content.
  destruct (json_loads data) as [parsed|] eqn:Hload.
  - destruct (nested_content parsed) as [content|] eqn:Hnest; cbn [get_or].
    + now rewrite (extract_try_nested data parsed content).
    + destruct (extract_try_absent data parsed Hload Hnest) as [H|[e H]];
        now rewrite H.
  - unfold extract_try. now rewrite Hload.
Qed.

End TransportFacts.

Lemma done_ends_stream_witness :
  stream_loop sample_loads sample_lines = [PStr "Hi"].
Proof.
  transitivity
    (stream_loop sample_loads [": keep-alive"; "data: " ++ payload_hi]).
  - exact (proj1 (done_ends_stream sample_loads sample_getenv
                    [": keep-alive"; "data: " ++ payload_hi]
                    ["data: " ++ payload_hi])).
  - reflexivity.
Defined.

Lemma extract_content_total_witness :
  stream_loop sample_loads ["data: oops"; "data: " ++ payload_hi] =
  [PStr ""; PStr "Hi"].
Proof.
  transitivity
    (_extract_content sample_loads "oops" ::
     stream_loop sample_loads ["data: " ++ payload_hi]).
  - apply (proj2 (extract_content_total sample_loads "oops")). discriminate.
  - reflexivity.
Defined.

(** ** Dictionaries *)

Lemma dict_get_In {V : Type} (d : list (string * V)) (k : string) (v : V) :
  dict_get d k = Some v -> In (k, v) d.
Proof.
  induction d as [|[k' v'] d IH]; cbn [dict_get]; [discriminate|].
  destruct (String.eqb_spec k' k) as [->|Hne].
  - intros [= ->]. now left.
  - intros H. right. now apply IH.
Qed.

Lemma dict_mem_get {V : Type} (d : list (string * V)) (k : string) :
  dict_mem d k = true -> exists v, dict_get d k = Some v.
Proof.
  unfold dict_mem. destruct (dict_get d k) as [v|]; [eauto | discriminate].
Qed.

Lemma dict_get_set_other {V : Type} (d : list (string * V)) (k k' : string)
  (v : V) :
  k' <> k -> dict_get (dict_set d k' v) k = dict_get d k.
Proof.
  intros Hne. induction d as [|[k0 v0] d IH]; cbn [dict_set dict_get].
  - now destruct (String.eqb_spec k' k).
  - destruct (String.eqb_spec k0 k') as [->|Hne0]; cbn [dict_get].
    + now destruct (String.eqb_spec k' k).
    + destruct (String.eqb_spec k0 k); [reflexivity | exact IH].
Qed.

Lemma dict_get_update_absent {V : Type} (d e : list (string * V)) (k : string) :
  dict_get e k = None -> dict_get (dict_update d e) k = dict_get d k.
Proof.
  unfold dict_update. revert d.
  induction e as [|[k' v'] e IH]; intros d; cbn [fold_left dict_get fst snd].
  - reflexivity.
  - destruct (String.eqb_spec k' k) as [->|Hne]; [discriminate|].
    intros H. rewrite (IH _ H). now apply dict_get_set_other.
Qed.

(** ** Registry lookup *)

Lemma lookup_reads_two_names (self1 self2 : ModelRouter) (model_id : string) :
  dict_get (providers self1) "moonshot" = dict_get (providers self2) "moonshot" ->
  dict_get (providers self1) "openrouter" =
  dict_get (providers self2) "openrouter" ->
  _get_model_config self1 model_id = _get_model_config self2 model_id.
Proof.
  intros Hm Ho. unfold _get_model_config, check_moonshot, check_openrouter.
  now rewrite Hm, Ho.
Qed.

Lemma check_moonshot_hit (self : ModelRouter) (moonshot : pyval)
  (model_id : string) (entry : pydict) :
  dict_get (providers self) "moonshot" = Some moonshot ->
  dict_get (catalog moonshot) model_id = Some (PDict entry) ->
  check_moonshot self model_id =
  Ok (Some (dict_update [("provider", PStr "moonshot");
                         ("provider_config", moonshot)] entry)).
Proof.
  intros Hm Hentry. unfold check_moonshot. rewrite Hm.
  unfold catalog in Hentry.
  destruct moonshot as [| | | | | |fields]; try discriminate.
  cbn [py_get bind].
  destruct (dict_get fields "models") as [[| | | | | |models]|]; try discriminate.
  cbn [py_has bind py_item]. unfold dict_mem. now rewrite Hentry.
Qed.

Lemma check_moonshot_miss (self : ModelRouter) (model_id : string) :
  registry_ok self = true ->
  match dict_get (providers self) "moonshot" with
  | Some moonshot => has_key moonshot model_id = false
  | None => True
  end ->
  check_moonshot self model_id = Ok None.
Proof.
  unfold registry_ok, check_moonshot, has_key, catalog. intros Hok.
  apply andb_prop in Hok as [Hok _].
  destruct (dict_get (providers self) "moonshot") as [moonshot|]; [|reflexivity].
  destruct moonshot as [| | | | | |fields]; try discriminate.
  cbn [provider_ok] in Hok. cbn [py_get bind].
  destruct (dict_get fields "models") as [[| | | | | |models]|];
    try discriminate; cbn [py_has bind].
  - intros ->. reflexivity.
  - reflexivity.
Qed.

Lemma catalog_entry_is_dict (provider : pyval) (key : string) (v : pyval) :
  provider_ok provider = true ->
  dict_get (catalog provider) key = Some v ->
  exists entry, v = PDict entry.
Proof.
  unfold provider_ok, catalog.
  destruct provider as [| | | | | |fields]; try discriminate.
  destruct (dict_get fields "models") as [[| | | | | |models]|];
    try discriminate.
  intros Hall Hget. apply dict_get_In in Hget.
  rewrite forallb_forall in Hall. specialize (Hall _ Hget). cbn [snd] in Hall.
  destruct v; try discriminate. eauto.
Qed.

Lemma scan_openrouter_hit (openrouter : pyval) (model_id : string)
  (items : pydict) :
  forallb (fun kv => is_dict (snd kv)) items = true ->
  dict_mem items model_id = true \/
  existsb (fun kv =>
             match snd kv with
             | PDict entry =>
                 match dict_get entry "id" with
                 | Some v => py_eq_str v model_id
                 | None => false
                 end
             | _ => false
             end) items = true ->
  exists cfg, scan_openrouter openrouter model_id items = Ok (Some cfg).
Proof.
  induction items as [|[key config] items IH];
    cbn [forallb existsb scan_openrouter fst snd].
  - intros _ [H|H]; discriminate.
  - intros Hall Hany. apply andb_prop in Hall as [Hd Hall].
    destruct config as [| | | | | |entry]; try discriminate.
    cbn [py_get bind py_spread].
    destruct (py_eq_str (match dict_get entry "id" with
                         | Some x => x
                         | None => PNone
                         end) model_id || (key =? model_id)) eqn:Hcond;
      [eauto|].
    apply orb_false_elim in Hcond as [Hid Hkey].
    apply IH; [exact Hall|].
    destruct Hany as [Hmem|Hex].
    + left. unfold dict_mem in *. cbn [dict_get] in Hmem.
      now rewrite Hkey in Hmem.
    + right. apply orb_prop in Hex as [Hhead|Hrest]; [|exact Hrest].
      destruct (dict_get entry "id"); congruence.
Qed.

Lemma check_openrouter_hit (self : ModelRouter) (openrouter : pyval)
  (model_id : string) :
  dict_get (providers self) "openrouter" = Some openrouter ->
  provider_ok openrouter = true ->
  has_key openrouter model_id = true \/ has_id openrouter model_id = true ->
  exists cfg, check_openrouter self model_id = Ok (Some cfg).
Proof.
  intros Ho Hok Hmatch. unfold check_openrouter. rewrite Ho.
  unfold provider_ok in Hok. unfold has_key, has_id, catalog in Hmatch.
  destruct openrouter as [| | | | | |fields]; try discriminate.
  cbn [py_get bind].
  destruct (dict_get fields "models") as [[| | | | | |models]|];
    try discriminate.
  - cbn [py_items bind]. now apply scan_openrouter_hit.
  - destruct Hmatch; discriminate.
Qed.

Lemma check_moonshot_total (self : ModelRouter) (model_id : string) :
  registry_ok self = true ->
  exists r, check_moonshot self model_id = Ok r.
Proof.
  intros Hok.
  destruct (dict_get (providers self) "moonshot") as [moonshot|] eqn:Hm.
  - destruct (has_key moonshot model_id) eqn:Hkey.
    + destruct (dict_mem_get _ _ Hkey) as [v Hv].
      assert (Hp : provider_ok moonshot = true).
      { unfold registry_ok in Hok. rewrite Hm in Hok.
        now apply andb_prop in Hok as [Hok _]. }
      destruct (catalog_entry_is_dict _ _ _ Hp Hv) as [entry ->].
      rewrite (check_moonshot_hit self moonshot model_id entry Hm Hv). eauto.
    + rewrite check_moonshot_miss; [eauto | exact Hok | now rewrite Hm].
  - rewrite check_moonshot_miss; [eauto | exact Hok | now rewrite Hm].
Qed.

Lemma scan_openrouter_miss (openrouter : pyval) (model_id : string)
  (items : pydict) :
  forallb (fun kv => is_dict (snd kv)) items = true ->
  dict_mem items model_id = false ->
  existsb (fun kv =>
             match snd kv with
             | PDict entry =>
                 match dict_get entry "id" with
                 | Some v => py_eq_str v model_id
                 | None => false
                 end
             | _ => false
             end) items = false ->
  scan_openrouter openrouter model_id items = Ok None.
Proof.
  induction items as [|[key config] items IH];
    cbn [forallb existsb scan_openrouter fst snd]; [reflexivity|].
  intros Hall Hmem Hex. apply andb_prop in Hall as [Hd Hall].
  apply orb_false_elim in Hex as [Hhead Hrest].
  destruct config as [| | | | | |entry]; try discriminate.
  unfold dict_mem in Hmem. cbn [dict_get] in Hmem.
  destruct (key =? model_id) eqn:Hkey; [discriminate|].
  cbn [py_get bind].
  replace (py_eq_str (match dict_get entry "id" with
                      | Some x => x
                      | None => PNone
                      end) model_id) with false
    by (destruct (dict_get entry "id"); [now rewrite Hhead | reflexivity]).
  cbn [orb]. now apply IH.
Qed.

(** An identifier that matches nothing the lookup reads is reported as
    not found. *)
Lemma lookup_fails_without_match (self : ModelRouter) (model_id : string) :
  registry_ok self = true ->
  match dict_get (providers self) "moonshot" with
  | Some moonshot => has_key moonshot model_id = false
  | None => True
  end ->
  match dict_get (providers self) "openrouter" with
  | Some openrouter =>
      has_key openrouter model_id = false /\ has_id openrouter model_id = false
  | None => True
  end ->
  _get_model_config self model_id = Raise (ModelNotFound model_id).
Proof.
  intros Hok Hm Ho. unfold _get_model_config.
  rewrite (check_moonshot_miss self model_id Hok Hm). cbn [bind].
  unfold check_openrouter.
  unfold registry_ok in Hok. apply andb_prop in Hok as [_ Hok].
  destruct (dict_get (providers self) "openrouter") as [openrouter|];
    [|reflexivity].
  unfold has_key, has_id, catalog in Ho. unfold provider_ok in Hok.
  destruct openrouter as [| | | | | |fields]; try discriminate.
  cbn [py_get bind].
  destruct (dict_get fields "models") as [[| | | | | |models]|];
    try discriminate; cbn [py_items bind].
  - destruct Ho as [Hkey Hid].
    now rewrite (scan_openrouter_miss _ _ _ Hok Hkey Hid).
  - reflexivity.
Qed.

Lemma lookup_unregistered (self : ModelRouter) (model_id : string) :
  registry_ok self = true ->
  registered self model_id = false ->
  _get_model_config self model_id = Raise (ModelNotFound model_id).
Proof.
  intros Hok Hreg. unfold registered in Hreg.
  apply orb_false_elim in Hreg as [Hm Ho].
  apply lookup_fails_without_match; [exact Hok | |].
  - now destruct (dict_get (providers self) "moonshot").
  - destruct (dict_get (providers self) "openrouter"); [|exact I].
    now apply orb_false_elim in Ho.
Qed.

(** C2 (as the code has it): the lookup reads the provider stored under
    "moonshot" first and the one stored under "openrouter" second, whatever
    the order in which the configuration lists them. Its result is a
    function of these two entries alone, and a key of moonshot's catalog
    resolves to moonshot's entry even when openrouter registers the same
    key. *)
Theorem moonshot_checked_first :
  (forall (self1 self2 : ModelRouter) (model_id : string),
     dict_get (providers self1) "moonshot" =
     dict_get (providers self2) "moonshot" ->
     dict_get (providers self1) "openrouter" =
     dict_get (providers self2) "openrouter" ->
     _get_model_config self1 model_id = _get_model_config self2 model_id) /\
  (forall (self : ModelRouter) (moonshot : pyval) (model_id : string)
          (entry : pydict),
     dict_get (providers self) "moonshot" = Some moonshot ->
     dict_get (catalog moonshot) model_id = Some (PDict entry) ->
     _get_model_config self model_id =
     Ok (dict_update [("provider", PStr "moonshot");
                      ("provider_config", moonshot)] entry)).
Proof.
  split.
  - exact lookup_reads_two_names.
  - intros self moonshot model_id entry Hm Hentry.
    unfold _get_model_config.
    now rewrite (check_moonshot_hit self moonshot model_id entry Hm Hentry).
Qed.

Lemma moonshot_checked_first_witness :
  _get_model_config router_openrouter_first "shared" =
  _get_model_config (router_moonshot_first true) "shared" /\
  _get_model_config router_openrouter_first "shared" =
  Ok (dict_update [("provider", PStr "moonshot");
                   ("provider_config", moonshot_provider)]
                  [("id", PStr "moonshot-v1-8k")]).
Proof.
  split.
  - apply (proj1 moonshot_checked_first); reflexivity.
  - apply (proj2 moonshot_checked_first); reflexivity.
Defined.

(** C2, the claim as stated fails: with OpenRouter listed first and both
    catalogs registering "shared", registration order names OpenRouter and
    the lookup answers with Moonshot's entry. *)
Lemma registration_order_not_followed :
  first_registered (providers router_openrouter_first) "shared" =
  Some "openrouter" /\
  provider_of (_get_model_config router_openrouter_first "shared") =
  Ok (PStr "moonshot").
Proof. split; reflexivity. Qed.

(** C3 (as the code has it): with the two providers well formed, the lookup
    succeeds for an identifier that is a key of moonshot's catalog, a key of
    openrouter's catalog, or the "id" value of an entry of openrouter's
    catalog. *)
Theorem lookup_succeeds_on_match (self : ModelRouter) (model_id : string) :
  registry_ok self = true ->
  (exists moonshot,
     dict_get (providers self) "moonshot" = Some moonshot /\
     has_key moonshot model_id = true) \/
  (exists openrouter,
     dict_get (providers self) "openrouter" = Some openrouter /\
     (has_key openrouter model_id = true \/
      has_id openrouter model_id = true)) ->
  exists cfg, _get_model_config self model_id = Ok cfg.
Proof.
  intros Hok Hmatch. unfold _get_model_config.
  destruct (check_moonshot_total self model_id Hok) as [[cfg|] Hcm];
    rewrite Hcm; cbn [bind]; [eauto|].
  destruct Hmatch as [[moonshot [Hm Hkey]]|[openrouter [Ho Hmatch]]].
  - destruct (dict_mem_get _ _ Hkey) as [v Hv].
    assert (Hp : provider_ok moonshot = true).
    { unfold registry_ok in Hok. rewrite Hm in Hok.
      now apply andb_prop in Hok as [Hok _]. }
    destruct (catalog_entry_is_dict _ _ _ Hp Hv) as [entry ->].
    rewrite (check_moonshot_hit self moonshot model_id entry Hm Hv) in Hcm.
    discriminate.
  - assert (Hp : provider_ok openrouter = true).
    { unfold registry_ok in Hok. rewrite Ho in Hok.
      now apply andb_prop in Hok as [_ Hok]. }
    destruct (check_openrouter_hit self openrouter model_id Ho Hp Hmatch)
      as [cfg Hco].
    rewrite Hco. cbn [bind]. eauto.
Qed.

Lemma lookup_succeeds_on_match_witness :
  exists cfg,
    _get_model_config (router_moonshot_first true)
      "anthropic/claude-3.5-sonnet" = Ok cfg.
Proof.
  apply lookup_succeeds_on_match.
  - reflexivity.
  - right. exists openrouter_provider. split; [reflexivity|].
    right. reflexivity.
Defined.

(** C3, the claim as stated fails: a provider the configuration registers
    under another name is never read, so neither the key nor the "id" of
    its model resolves. *)
Lemma third_provider_not_searched :
  dict_get (providers router_with_groq) "groq" = Some groq_provider /\
  has_key groq_provider "llama" = true /\
  has_id groq_provider "llama-3.1-70b" = true /\
  _get_model_config router_with_groq "llama" = Raise (ModelNotFound "llama") /\
  _get_model_config router_with_groq "llama-3.1-70b" =
  Raise (ModelNotFound "llama-3.1-70b").
Proof. repeat split; reflexivity. Qed.

(** A key of moonshot's catalog is matched, the "id" value of its entry is
    not. *)
Example moonshot_entry_by_key_only :
  has_key moonshot_provider "kimi-long" = true /\
  has_id moonshot_provider "moonshot-v1-128k" = true /\
  provider_of (_get_model_config (router_moonshot_first true) "kimi-long") =
  Ok (PStr "moonshot") /\
  _get_model_config (router_moonshot_first true) "moonshot-v1-128k" =
  Raise (ModelNotFound "moonshot-v1-128k").
Proof. repeat split; reflexivity. Qed.

(** ** Selection *)

Lemma preferred_truthy_some (m : string) :
  m <> "" -> preferred_truthy (Some m) = true.
Proof.
  intros Hne. unfold preferred_truthy.
  apply String.eqb_neq in Hne. now rewrite Hne.
Qed.

(** C4 (as the code has it): a non-empty override is resolved directly.
    Selection is the lookup of the override, whatever the message, the
    auto-switch table, the routing table and the default model: in a well
    formed registry it fails with ModelNotFound when the override names no
    registered model, and no other identifier is tried. *)
Theorem override_resolved_directly (self : ModelRouter) (message m : string) :
  m <> "" ->
  select_model self message (Some m) = _get_model_config self m /\
  (registry_ok self = true -> registered self m = false ->
   select_model self message (Some m) = Raise (ModelNotFound m)) /\
  (forall dm tr asw message',
     select_model {| default_model := dm; providers := providers self;
                     task_routing := tr; auto_switch := asw |}
                  message' (Some m) =
     select_model self message (Some m)).
Proof.
  intros Hne.
  assert (Hsel : forall r msg,
             select_model r msg (Some m) = _get_model_config r m).
  { intros r msg. unfold select_model.
    now rewrite (preferred_truthy_some m Hne). }
  split; [apply Hsel|]. split.
  - intros Hok Hreg. rewrite Hsel. now apply lookup_unregistered.
  - intros dm tr asw message'. rewrite !Hsel.
    now apply lookup_reads_two_names.
Qed.

Lemma override_resolved_directly_witness :
  select_model (router_moonshot_first true) "fix my code" (Some "nope") =
  Raise (ModelNotFound "nope").
Proof.
  apply (proj1 (proj2 (override_resolved_directly
                         (router_moonshot_first true) "fix my code" "nope"
                         ltac:(discriminate)))); reflexivity.
Defined.

(** C4, the claim as stated fails: the empty string is an override that
    does not resolve, and selection with it succeeds (with the default
    route) instead of failing with ModelNotFound. *)
Lemma empty_override_does_not_fail :
  _get_model_config (router_moonshot_first true) "" =
  Raise (ModelNotFound "") /\
  select_model (router_moonshot_first true) "hello" (Some "") =
  _get_model_config (router_moonshot_first true) "kimi-k2.5" /\
  provider_of (select_model (router_moonshot_first true) "hello" (Some "")) =
  Ok (PStr "moonshot").
Proof. repeat split; reflexivity. Qed.

(** C5: with auto-switch disabled and no override, selection is the lookup
    of the default model for every message, and fails with ModelNotFound
    when the default model is not registered. *)
Theorem auto_switch_off_selects_default (self : ModelRouter)
  (message : string) (preferred_model : option string) :
  auto_switch_enabled self = false ->
  preferred_truthy preferred_model = false ->
  select_model self message preferred_model =
  _get_model_config self (default_model self) /\
  (registry_ok self = true -> registered self (default_model self) = false ->
   select_model self message preferred_model =
   Raise (ModelNotFound (default_model self))).
Proof.
  intros Hoff Hnone.
  assert (Hsel : select_model self message preferred_model =
                 _get_model_config self (default_model self)).
  { unfold select_model. now rewrite Hnone, Hoff. }
  split; [exact Hsel|].
  intros Hok Hreg. rewrite Hsel. now apply lookup_unregistered.
Qed.

Lemma auto_switch_off_selects_default_witness :
  select_model (router_moonshot_first false) "fix my code" None =
  _get_model_config (router_moonshot_first false) "kimi-k2.5".
Proof.
  apply (proj1 (auto_switch_off_selects_default (router_moonshot_first false)
                  "fix my code" None eq_refl eq_refl)).
Defined.

(** C6: with auto-switch enabled and no override, selection takes the
    policy's pair of identifiers for the category of the message (the
    default model twice when the category has no entry), returns the
    primary's configuration when it resolves, and otherwise is the lookup of
    the fallback, once: the fallback's configuration when it resolves,
    ModelNotFound when neither identifier is registered. *)
Theorem two_strike_selection (self : ModelRouter) (message : string)
  (preferred_model : option string) :
  auto_switch_enabled self = true ->
  preferred_truthy preferred_model = false ->
  let category := detect_task_type message in
  let primary_id := fst (policy_ids self category) in
  let fallback_id := snd (policy_ids self category) in
  (dict_get (task_routing self) category = None ->
   primary_id = default_model self /\ fallback_id = default_model self) /\
  (forall cfg, _get_model_config self primary_id = Ok cfg ->
     select_model self message preferred_model = Ok cfg) /\
  (forall e, _get_model_config self primary_id = Raise e ->
     select_model self message preferred_model =
     _get_model_config self fallback_id) /\
  (registry_ok self = true ->
   registered self primary_id = false -> registered self fallback_id = false ->
   select_model self message preferred_model =
   Raise (ModelNotFound fallback_id)).
Proof.
  intros Hon Hnone category primary_id fallback_id.
  assert (Hsel : select_model self message preferred_model =
                 match _get_model_config self primary_id with
                 | Ok cfg => Ok cfg
                 | Raise _ => _get_model_config self fallback_id
                 end).
  { unfold select_model. rewrite Hnone, Hon. cbn [negb].
    subst primary_id fallback_id category. unfold policy_ids.
    now destruct (dict_get (task_routing self) (detect_task_type message)). }
  split.
  - intros Habsent. subst primary_id fallback_id. unfold policy_ids.
    now rewrite Habsent.
  - rewrite Hsel. repeat split.
    + intros cfg ->. reflexivity.
    + intros e ->. reflexivity.
    + intros Hok Hp Hf. rewrite (lookup_unregistered self primary_id Hok Hp).
      now apply lookup_unregistered.
Qed.

Lemma two_strike_selection_witness :
  select_model (router_moonshot_first true) "please solve this" None =
  _get_model_config (router_moonshot_first true) "kimi-long" /\
  provider_of (select_model (router_moonshot_first true) "please solve this"
                 None) = Ok (PStr "moonshot").
Proof.
  split.
  - apply (proj1 (proj2 (proj2
      (two_strike_selection (router_moonshot_first true) "please solve this"
         None eq_refl eq_refl))) (ModelNotFound "o1-preview")).
    reflexivity.
  - reflexivity.
Defined.

Example both_identifiers_unregistered :
  detect_task_type (String.concat "" (repeat "lorem ipsum " 400)) =
  "long_context" /\
  select_model (router_moonshot_first true)
    (String.concat "" (repeat "lorem ipsum " 400)) None =
  Raise (ModelNotFound "gpt-5").
Proof. split; vm_compute; reflexivity. Qed.

(** C9: an override equal to the empty string is no override. Selection,
    and the public entry point built on it, behave with [Some ""] as they
    do with [None]. *)
Theorem empty_override_is_no_override
  (json_loads : string -> option pyval) (getenv : string -> option string)
  (self : ModelRouter) (response : HttpResponse) (message : string)
  (stream : bool) :
  select_model self message (Some "") = select_model self message None /\
  chat_completion json_loads getenv self response message (Some "") stream =
  chat_completion json_loads getenv self response message None stream.
Proof. split; reflexivity. Qed.

(** ** The provider tag and the dispatch *)

(** The tag written by the lookup survives the merge when the catalog entry
    has no "provider" key of its own. *)
Lemma provider_tag_kept (tag provider_config : pyval) (entry : pydict) :
  dict_get entry "provider" = None ->
  dict_get (dict_update [("provider", tag);
                         ("provider_config", provider_config)] entry)
           "provider" = Some tag.
Proof.
  intros Habsent. now rewrite dict_get_update_absent.
Qed.

(** C10, at the failing input: the catalog entry carries a "provider" key
    ("anthropic"), the merge lets it replace the tag the lookup wrote, and
    the dispatch of [chat_completion] matches neither branch: the call
    yields nothing, whatever the reply. *)
Theorem vendor_key_replaces_provider_tag
  (json_loads : string -> option pyval) (getenv : string -> option string)
  (response : HttpResponse) (message : string) (stream : bool) :
  provider_of (_get_model_config router_with_vendor "claude-sonnet") =
  Ok (PStr "anthropic") /\
  provider_of (select_model router_with_vendor message (Some "claude-sonnet")) =
  Ok (PStr "anthropic") /\
  chat_completion json_loads getenv router_with_vendor response message
    (Some "claude-sonnet") stream = Ok [].
Proof. repeat split; reflexivity. Qed.

Example dispatch_reaches_moonshot :
  chat_completion sample_loads sample_getenv (router_moonshot_first true)
    {| aiter_lines := sample_lines; json := None |} "hello" None true =
  Ok [PStr "Hi"].
Proof. reflexivity. Qed.

(** ** More on the classifier *)

Lemma str_app_assoc (a b c : string) : (a ++ b) ++ c = a ++ b ++ c.
Proof. induction a as [|x a IH]; simpl; [reflexivity | now rewrite IH]. Qed.

Lemma lower_app (a b : string) : lower (a ++ b) = lower a ++ lower b.
Proof. induction a as [|x a IH]; simpl; [reflexivity | now rewrite IH]. Qed.






Lemma Substring_embed (sub s pre post : string) :
  Substring sub s -> Substring sub (pre ++ s ++ post).
Proof.
  intros [p [q ->]]. exists (pre ++ p), (q ++ post).
  now rewrite !str_app_assoc.
Qed.

Lemma mentions_embed (kws : list string) (message pre post : string) :
  mentions kws message -> mentions kws (pre ++ message ++ post).
Proof.
  intros [kw [Hin Hsub]]. exists kw. split; [exact Hin|].
  rewrite !lower_app. now apply Substring_embed.
Qed.

Lemma coding_iff (message : string) :
  detect_task_type message = "coding" <-> mentions code_keywords message.
Proof.
  rewrite <- mentions_iff. unfold detect_task_type.
  destruct (any_kw_in code_keywords (lower message));
    destruct (any_kw_in math_keywords (lower message));
    destruct (any_kw_in creative_keywords (lower message));
    destruct (4000 <? String.length message)%nat;
    destruct ((String.length message <? 50)%nat && str_in "?" message);
    split; intros H; try reflexivity; discriminate H.
Qed.



(** X2: a message classified as coding stays coding inside any longer
    message: text put before or after it cannot change the category. *)
Theorem coding_survives_context (message pre post : string) :
  detect_task_type message = "coding" ->
  detect_task_type (pre ++ message ++ post) = "coding".
Proof.
  rewrite !coding_iff. apply mentions_embed.
Qed.

Lemma coding_survives_context_witness :
  detect_task_type ("Is this ok? " ++ "fix the bug" ++ " thanks") = "coding".
Proof.
  apply (coding_survives_context "fix the bug" "Is this ok? " " thanks").
  reflexivity.
Defined.

(** X3: each category tells what the message is like. The result is
    "coding" exactly when a coding keyword occurs, "reasoning" exactly when
    a math keyword occurs and no coding keyword, and so on down to the
    length tests: "long_context" exactly for keyword-free messages longer
    than 4000, "fast_responses" exactly for keyword-free messages shorter
    than 50 with a question mark, "default" for the rest. *)
Theorem category_characterised (message : string) :
  let code := mentions code_keywords message in
  let math := mentions math_keywords message in
  let creative := mentions creative_keywords message in
  let len := String.length message in
  (detect_task_type message = "coding" <-> code) /\
  (detect_task_type message = "reasoning" <-> ~ code /\ math) /\
  (detect_task_type message = "creative_writing" <->
   ~ code /\ ~ math /\ creative) /\
  (detect_task_type message = "long_context" <->
   ~ code /\ ~ math /\ ~ creative /\ (4000 < len)%nat) /\
  (detect_task_type message = "fast_responses" <->
   ~ code /\ ~ math /\ ~ creative /\ (len < 50)%nat /\
   Substring "?" message) /\
  (detect_task_type message = "default" <->
   ~ code /\ ~ math /\ ~ creative /\ (len <= 4000)%nat /\
   ~ ((len < 50)%nat /\ Substring "?" message)).
Proof.
  cbv zeta. rewrite <- !mentions_iff, <- str_in_iff. unfold detect_task_type.
  destruct (any_kw_in code_keywords (lower message));
    destruct (any_kw_in math_keywords (lower message));
    destruct (any_kw_in creative_keywords (lower message));
    destruct (Nat.ltb_spec 4000 (String.length message));
    destruct (Nat.ltb_spec (String.length message) 50);
    destruct (str_in "?" message);
    cbn [andb];
    repeat split; intros;
    repeat match goal with H : _ /\ _ |- _ => destruct H end;
    try reflexivity; try discriminate; try congruence; try lia; try tauto.
Qed.

(** ** More on dictionaries *)

Lemma dict_get_set_same {V : Type} (d : list (string * V)) (k : string) (v : V) :
  dict_get (dict_set d k v) k = Some v.
Proof.
  induction d as [|[k0 v0] d IH]; cbn [dict_set dict_get].
  - now rewrite String.eqb_refl.
  - destruct (String.eqb_spec k0 k) as [->|Hne]; cbn [dict_get].
    + now rewrite String.eqb_refl.
    + destruct (String.eqb_spec k0 k); [contradiction | exact IH].
Qed.

Lemma dict_mem_false_get {V : Type} (d : list (string * V)) (k : string) :
  dict_mem d k = false -> dict_get d k = None.
Proof. unfold dict_mem. now destruct (dict_get d k). Qed.

Lemma dict_mem_In {V : Type} (d : list (string * V)) (k : string) (v : V) :
  In (k, v) d -> dict_mem d k = true.
Proof.
  unfold dict_mem. induction d as [|[k0 v0] d IH]; intros Hin; [contradiction|].
  cbn [dict_get]. destruct (String.eqb_spec k0 k); [reflexivity|].
  destruct Hin as [Heq|Hin]; [congruence | now apply IH].
Qed.

Lemma dict_mem_set {V : Type} (d : list (string * V)) (k k' : string) (v : V) :
  dict_mem d k = true -> dict_mem (dict_set d k' v) k = true.
Proof.
  unfold dict_mem. intros H.
  destruct (String.eqb_spec k' k) as [->|Hne].
  - now rewrite dict_get_set_same.
  - now rewrite dict_get_set_other.
Qed.

Lemma dict_mem_update {V : Type} (d e : list (string * V)) (k : string) :
  dict_mem d k = true -> dict_mem (dict_update d e) k = true.
Proof.
  unfold dict_update. revert d.
  induction e as [|[k' v'] e IH]; intros d H; cbn [fold_left fst snd].
  - exact H.
  - apply IH. now apply dict_mem_set.
Qed.

(** With one binding per key, the merge [{**d, **e}] reads as [e] first and
    [d] for the keys [e] does not have. *)
Lemma dict_get_update {V : Type} (d e : list (string * V)) (k : string) :
  unique_keys e = true ->
  dict_get (dict_update d e) k =
  match dict_get e k with
  | Some v => Some v
  | None => dict_get d k
  end.
Proof.
  unfold dict_update. revert d.
  induction e as [|[k' v'] e IH]; intros d Huniq;
    cbn [fold_left fst snd dict_get unique_keys] in *.
  - reflexivity.
  - apply andb_prop in Huniq as [Hfresh Huniq].
    apply negb_true_iff in Hfresh.
    rewrite (IH _ Huniq).
    destruct (String.eqb_spec k' k) as [->|Hne].
    + rewrite (dict_mem_false_get _ _ Hfresh). apply dict_get_set_same.
    + now rewrite (dict_get_set_other d k k' v' Hne).
Qed.

(** ** More on the registry lookup *)

Lemma check_moonshot_sound (self : ModelRouter) (model_id : string)
  (cfg : pydict) :
  check_moonshot self model_id = Ok (Some cfg) ->
  exists moonshot entry,
    dict_get (providers self) "moonshot" = Some moonshot /\
    dict_get (catalog moonshot) model_id = Some (PDict entry) /\
    cfg = dict_update [("provider", PStr "moonshot");
                       ("provider_config", moonshot)] entry.
Proof.
  unfold check_moonshot, catalog.
  destruct (dict_get (providers self) "moonshot") as [moonshot|];
    [|discriminate].
  destruct moonshot as [| | | | | |fields]; try discriminate.
  cbn [py_get bind].
  destruct (dict_get fields "models") as [[| | | |s|l|models]|] eqn:Hmodels;
    cbn [py_has bind]; try discriminate.
  - destruct (str_in model_id s); discriminate.
  - destruct (existsb (fun x => py_eq_str x model_id) l); discriminate.
  - unfold dict_mem. cbn [py_item].
    destruct (dict_get models model_id) as [[| | | | | |entry]|] eqn:Hentry;
      cbn [bind py_spread]; try discriminate.
    intros [= <-]. exists (PDict fields), entry. rewrite Hmodels. auto.
Qed.

Lemma scan_openrouter_sound (openrouter : pyval) (model_id : string)
  (items cfg : pydict) :
  scan_openrouter openrouter model_id items = Ok (Some cfg) ->
  exists key entry,
    In (key, PDict entry) items /\
    (key = model_id \/ dict_get entry "id" = Some (PStr model_id)) /\
    cfg = dict_update [("provider", PStr "openrouter");
                       ("provider_config", openrouter)] entry.
Proof.
  induction items as [|[key config] items IH]; cbn [scan_openrouter];
    [discriminate|].
  destruct config as [| | | | | |entry]; try discriminate.
  cbn [py_get bind py_spread].
  destruct (py_eq_str (match dict_get entry "id" with
                       | Some x => x
                       | None => PNone
                       end) model_id) eqn:Hid; cbn [orb].
  - intros [= <-]. exists key, entry. split; [now left|]. split; [|reflexivity].
    right. destruct (dict_get entry "id") as [[| | | |s| |]|]; try discriminate.
    cbn [py_eq_str] in Hid. apply String.eqb_eq in Hid. now subst.
  - destruct (String.eqb_spec key model_id) as [->|Hne].
    + intros [= <-]. exists model_id, entry. split; [now left|]. auto.
    + intros H. destruct (IH H) as [k [e [Hin Hrest]]].
      exists k, e. split; [now right | exact Hrest].
Qed.

Lemma check_openrouter_sound (self : ModelRouter) (model_id : string)
  (cfg : pydict) :
  check_openrouter self model_id = Ok (Some cfg) ->
  exists openrouter key entry,
    dict_get (providers self) "openrouter" = Some openrouter /\
    In (key, PDict entry) (catalog openrouter) /\
    (key = model_id \/ dict_get entry "id" = Some (PStr model_id)) /\
    cfg = dict_update [("provider", PStr "openrouter");
                       ("provider_config", openrouter)] entry.
Proof.
  unfold check_openrouter, catalog.
  destruct (dict_get (providers self) "openrouter") as [openrouter|];
    [|discriminate].
  destruct openrouter as [| | | | | |fields]; try discriminate.
  cbn [py_get bind].
  destruct (dict_get fields "models") as [[| | | | | |models]|] eqn:Hmodels;
    cbn [py_items bind]; try discriminate.
  intros H. destruct (scan_openrouter_sound _ _ _ _ H) as [key [entry Hrest]].
  exists (PDict fields), key, entry. rewrite Hmodels. auto.
Qed.

(** A resolved configuration is the tag of one of the two providers merged
    with an entry of that provider's catalog that matches the identifier. *)
Lemma lookup_built_from_entry (self : ModelRouter) (model_id : string)
  (cfg : pydict) :
  _get_model_config self model_id = Ok cfg ->
  exists tag provider key entry,
    (tag = "moonshot" /\ key = model_id \/
     tag = "openrouter" /\
     (key = model_id \/ dict_get entry "id" = Some (PStr model_id))) /\
    dict_get (providers self) tag = Some provider /\
    In (key, PDict entry) (catalog provider) /\
    cfg = dict_update [("provider", PStr tag); ("provider_config", provider)]
                      entry.
Proof.
  unfold _get_model_config.
  destruct (check_moonshot self model_id) as [[cfg'|]|e] eqn:Hm; cbn [bind];
    [| |discriminate].
  - intros [= <-].
    destruct (check_moonshot_sound _ _ _ Hm) as [moonshot [entry [Hp [He ->]]]].
    exists "moonshot", moonshot, model_id, entry.
    repeat split; auto. now apply dict_get_In.
  - destruct (check_openrouter self model_id) as [[cfg'|]|e] eqn:Ho;
      cbn [bind]; try discriminate.
    intros [= <-].
    destruct (check_openrouter_sound _ _ _ Ho)
      as [openrouter [key [entry [Hp [Hin [Hmatch ->]]]]]].
    exists "openrouter", openrouter, key, entry. repeat split; auto.
Qed.

Lemma registered_of_lookup (self : ModelRouter) (model_id : string)
  (cfg : pydict) :
  _get_model_config self model_id = Ok cfg ->
  registered self model_id = true.
Proof.
  intros H.
  destruct (lookup_built_from_entry _ _ _ H)
    as [tag [provider [key [entry [Htag [Hp [Hin _]]]]]]].
  unfold registered.
  destruct Htag as [[-> ->]|[-> Hmatch]]; rewrite Hp.
  - unfold has_key. now rewrite (dict_mem_In _ _ _ Hin).
  - apply orb_true_iff. right. apply orb_true_iff.
    destruct Hmatch as [->|Hid].
    + left. unfold has_key. now rewrite (dict_mem_In _ _ _ Hin).
    + right. unfold has_id. apply existsb_exists.
      exists (key, PDict entry). split; [exact Hin|].
      cbn [snd]. rewrite Hid. apply String.eqb_refl.
Qed.

(** X4: the lookup finds nothing that is not there. Whatever the shape of
    the registry, a lookup that succeeds was asked for a key of moonshot's
    catalog, a key of openrouter's catalog or the "id" of an entry of
    openrouter's catalog; in a well formed registry every other identifier
    is reported as not found. *)
Theorem lookup_finds_only_registered (self : ModelRouter) (model_id : string) :
  (forall cfg, _get_model_config self model_id = Ok cfg ->
     registered self model_id = true) /\
  (registry_ok self = true ->
   registered self model_id = false ->
   _get_model_config self model_id = Raise (ModelNotFound model_id)).
Proof.
  split.
  - intros cfg. apply registered_of_lookup.
  - apply lookup_unregistered.
Qed.

Lemma lookup_finds_only_registered_witness :
  registered (router_moonshot_first true) "anthropic/claude-3.5-sonnet" = true.
Proof.
  eapply (proj1 (lookup_finds_only_registered (router_moonshot_first true)
                   "anthropic/claude-3.5-sonnet")).
  reflexivity.
Defined.

(** X5: what a resolved configuration holds. It always has the keys
    "provider" and "provider_config"; it is made from an entry of the
    catalog of moonshot or openrouter; every field of that entry (its "id",
    its "max_tokens", ...) is in it unchanged; and the two tags name the
    provider the entry came from unless the entry has these keys itself. *)
Theorem resolved_config_shape (self : ModelRouter) (model_id : string)
  (cfg : pydict) :
  _get_model_config self model_id = Ok cfg ->
  dict_mem cfg "provider" = true /\
  dict_mem cfg "provider_config" = true /\
  exists tag provider key entry,
    (tag = "moonshot" \/ tag = "openrouter") /\
    dict_get (providers self) tag = Some provider /\
    In (key, PDict entry) (catalog provider) /\
    (dict_get entry "provider" = None ->
     dict_get cfg "provider" = Some (PStr tag)) /\
    (dict_get entry "provider_config" = None ->
     dict_get cfg "provider_config" = Some provider) /\
    (unique_keys entry = true ->
     forall k v, dict_get entry k = Some v -> dict_get cfg k = Some v).
Proof.
  intros H.
  destruct (lookup_built_from_entry _ _ _ H)
    as [tag [provider [key [entry [Htag [Hp [Hin ->]]]]]]].
  split; [now apply dict_mem_update|].
  split; [now apply dict_mem_update|].
  exists tag, provider, key, entry.
  split; [destruct Htag as [[-> _]|[-> _]]; auto|].
  split; [exact Hp|]. split; [exact Hin|].
  split; [|split].
  - intros Habsent. now rewrite dict_get_update_absent.
  - intros Habsent. now rewrite dict_get_update_absent.
  - intros Huniq k v Hk. now rewrite (dict_get_update _ _ _ Huniq), Hk.
Qed.

Lemma resolved_config_shape_witness :
  dict_mem
    (dict_update [("provider", PStr "moonshot");
                  ("provider_config", moonshot_provider)]
                 [("id", PStr "kimi-k2.5"); ("max_tokens", PInt 8192)])
    "provider_config" = true.
Proof.
  apply (resolved_config_shape (router_moonshot_first true) "kimi-k2.5").
  reflexivity.
Defined.


Section EmptyRegistry.

Variable json_loads : string -> option pyval.
Variable getenv : string -> option string.


End EmptyRegistry.


(** ** More on selection *)

Lemma try_same (r : result pydict) :
  match r with
  | Ok cfg => Ok cfg
  | Raise _ => r
  end = r.
Proof. now destruct r. Qed.

(** X7: auto-switch only matters for a category the routing table has an
    entry for. For a message whose category has none, and without an
    override, selection is the lookup of the default model, with auto-switch
    on or off. *)
Theorem unrouted_category_selects_default (self : ModelRouter)
  (message : string) (preferred_model : option string) :
  preferred_truthy preferred_model = false ->
  dict_get (task_routing self) (detect_task_type message) = None ->
  select_model self message preferred_model =
  _get_model_config self (default_model self).
Proof.
  intros Hnone Habsent. unfold select_model. rewrite Hnone.
  destruct (negb (auto_switch_enabled self)); [reflexivity|].
  cbv zeta. rewrite Habsent. cbn [get_or dict_get]. apply try_same.
Qed.

Lemma unrouted_category_selects_default_witness :
  select_model (router_moonshot_first true) "hello there" None =
  _get_model_config (router_moonshot_first true) "kimi-k2.5".
Proof.
  apply (unrouted_category_selects_default (router_moonshot_first true)
           "hello there" None); reflexivity.
Defined.

(** X8: selection returns nothing but what the lookup returns. A selected
    configuration is the lookup of a registered identifier: the override
    when there is one, otherwise the default model or one of the two
    identifiers of the policy for the category of the message. *)
Theorem selection_comes_from_lookup (self : ModelRouter) (message : string)
  (preferred_model : option string) (cfg : pydict) :
  select_model self message preferred_model = Ok cfg ->
  exists model_id,
    _get_model_config self model_id = Ok cfg /\
    registered self model_id = true /\
    (preferred_truthy preferred_model = true ->
     preferred_model = Some model_id) /\
    (preferred_truthy preferred_model = false ->
     model_id = default_model self \/
     model_id = fst (policy_ids self (detect_task_type message)) \/
     model_id = snd (policy_ids self (detect_task_type message))).
Proof.
  unfold select_model, policy_ids.
  destruct (preferred_truthy preferred_model) eqn:Hpref.
  - destruct preferred_model as [m|]; [|discriminate]. cbn [get_or].
    intros H. exists m. split; [exact H|].
    split; [now apply registered_of_lookup with cfg|].
    split; [reflexivity | discriminate].
  - destruct (negb (auto_switch_enabled self)).
    + intros H. exists (default_model self). split; [exact H|].
      split; [now apply registered_of_lookup with cfg|].
      split; [discriminate | auto].
    + cbv zeta.
      destruct (dict_get (task_routing self) (detect_task_type message))
        as [entry|]; cbn [get_or fst snd].
      * destruct (_get_model_config self
                    (get_or (dict_get entry "primary") (default_model self)))
          as [cfg'|e] eqn:Hprimary.
        -- intros [= <-].
           exists (get_or (dict_get entry "primary") (default_model self)).
           split; [exact Hprimary|].
           split; [now apply registered_of_lookup with cfg'|].
           split; [discriminate | auto].
        -- intros H.
           exists (get_or (dict_get entry "fallback") (default_model self)).
           split; [exact H|].
           split; [now apply registered_of_lookup with cfg|].
           split; [discriminate | auto].
      * cbn [dict_get get_or]. rewrite try_same. intros H.
        exists (default_model self). split; [exact H|].
        split; [now apply registered_of_lookup with cfg|].
        split; [discriminate | auto].
Qed.

Lemma selection_comes_from_lookup_witness :
  exists model_id,
    _get_model_config (router_moonshot_first true) model_id =
    select_model (router_moonshot_first true) "fix my code" None /\
    registered (router_moonshot_first true) model_id = true.
Proof.
  destruct (selection_comes_from_lookup (router_moonshot_first true)
              "fix my code" None _ eq_refl) as [model_id [H1 [H2 _]]].
  exists model_id. split; [exact H1 | exact H2].
Defined.

(** ** More on the streaming loop *)

Lemma startswith_data (line : string) :
  startswith line "data: " = true -> line = "data: " ++ str_from 6 line.
Proof.
  unfold startswith. intros H. apply prefix_iff_app in H as [post ->].
  reflexivity.
Qed.

Lemma done_line_iff (line : string) :
  is_done_line line = true <-> line = "data: [DONE]".
Proof.
  unfold is_done_line. split.
  - intros H. apply andb_prop in H as [Hp Hd].
    apply String.eqb_eq in Hd. rewrite (startswith_data line Hp). now rewrite Hd.
  - intros ->. reflexivity.
Qed.

Section StreamFacts.

Variable json_loads : string -> option pyval.

Lemma stream_loop_step (line : string) (rest : list string) :
  line <> "data: [DONE]" ->
  stream_loop json_loads (line :: rest) =
  ((if startswith line "data: "
    then [_extract_content json_loads (str_from 6 line)]
    else []) ++ stream_loop json_loads rest)%list.
Proof.
  intros Hne. cbn [stream_loop].
  destruct (startswith line "data: ") eqn:Hp; [|reflexivity].
  destruct (str_from 6 line =? "[DONE]") eqn:Hd; [|reflexivity].
  exfalso. apply Hne, done_line_iff. unfold is_done_line. now rewrite Hp, Hd.
Qed.

(** X9: the fragments of a stream can be computed piece by piece. As long
    as the first piece holds no "data: [DONE]" line, the fragments of two
    pieces of lines in a row are the fragments of the first followed by the
    fragments of the second. *)
Theorem stream_loop_app (lines1 lines2 : list string) :
  ~ In "data: [DONE]" lines1 ->
  stream_loop json_loads (lines1 ++ lines2) =
  (stream_loop json_loads lines1 ++ stream_loop json_loads lines2)%list.
Proof.
  induction lines1 as [|line lines1 IH]; intros Hdone; [reflexivity|].
  assert (Hne : line <> "data: [DONE]") by (intros ->; apply Hdone; now left).
  assert (Hrest : ~ In "data: [DONE]" lines1)
    by (intros Hin; apply Hdone; now right).
  cbn [app]. rewrite !stream_loop_step by exact Hne.
  rewrite (IH Hrest). now rewrite app_assoc.
Qed.

(** X10: one fragment per data line. A stream without a "data: [DONE]"
    line yields exactly as many fragments as it has lines that start with
    "data: ", unparseable ones included; with the sentinel it yields at most
    that many. *)
Theorem one_fragment_per_data_line (lines : list string) :
  (List.length (stream_loop json_loads lines) <=
   List.length (filter (fun line => startswith line "data: ") lines))%nat /\
  (~ In "data: [DONE]" lines ->
   List.length (stream_loop json_loads lines) =
   List.length (filter (fun line => startswith line "data: ") lines)).
Proof.
  split.
  - induction lines as [|line lines IH]; [apply Nat.le_refl|].
    cbn [stream_loop filter].
    destruct (startswith line "data: "); [|exact IH].
    destruct (str_from 6 line =? "[DONE]"); cbn [List.length]; lia.
  - induction lines as [|line lines IH]; intros Hdone; [reflexivity|].
    assert (Hne : line <> "data: [DONE]") by (intros ->; apply Hdone; now left).
    assert (Hrest : ~ In "data: [DONE]" lines)
      by (intros Hin; apply Hdone; now right).
    rewrite (stream_loop_step line lines Hne). cbn [filter].
    rewrite length_app, (IH Hrest).
    now destruct (startswith line "data: ").
Qed.

End StreamFacts.

Lemma stream_loop_app_witness :
  stream_loop sample_loads
    ([": keep-alive"; "data: oops"] ++ ["data: " ++ payload_hi]) =
  [PStr ""; PStr "Hi"].
Proof.
  apply (stream_loop_app sample_loads [": keep-alive"; "data: oops"]
           ["data: " ++ payload_hi]).
  intros [H|[H|[]]]; discriminate H.
Defined.

Lemma one_fragment_per_data_line_witness :
  List.length
    (stream_loop sample_loads [": keep-alive"; "data: oops"; "data: x"]) = 2%nat.
Proof.
  apply (proj2 (one_fragment_per_data_line sample_loads
                  [": keep-alive"; "data: oops"; "data: x"])).
  intros [H|[H|[H|[]]]]; discriminate H.
Defined.

(** ** The transports *)


Section TransportMore.

Variable json_loads : string -> option pyval.
Variable getenv : string -> option string.

(** X11: the API key of a provider is the value of the environment
    variable its "api_key_env" names. A variable that is unset, or set to
    the empty string, is reported as a missing key naming the variable. *)
Theorem api_key_from_environment (self : ModelRouter) (provider name : string)
  (fields : pydict) :
  dict_get (providers self) provider = Some (PDict fields) ->
  dict_get fields "api_key_env" = Some (PStr name) ->
  (forall api_key,
     get_api_key getenv self provider = Ok api_key <->
     getenv name = Some api_key /\ api_key <> "") /\
  (getenv name = None \/ getenv name = Some "" ->
   get_api_key getenv self provider =
   Raise (ValueError ("Missing API key: " ++ name))).
Proof.
  intros Hp Henv. unfold get_api_key. cbn [py_item]. rewrite Hp.
  cbn [bind py_item]. rewrite Henv. cbn [bind]. split.
  - intros api_key. destruct (getenv name) as [k|].
    + destruct (String.eqb_spec k "") as [->|Hne]; split.
      * discriminate.
      * intros [[= <-] Hk]. contradiction.
      * intros [= <-]. auto.
      * now intros [[= <-] _].
    + split; [discriminate | intros [H _]; discriminate H].
  - intros [->| ->]; reflexivity.
Qed.

(** X12: no fragment without a request. A call that yields fragments had
    an API key, a "provider_config" with a "base_url" and an "id" in the
    configuration; and when the key is missing, the call raises that error
    whatever the configuration, the reply and the streaming flag. *)
Theorem no_fragment_without_request (self : ModelRouter) (provider : string)
  (response : HttpResponse) (model_config : pydict) (stream : bool) :
  (forall out,
     call_provider json_loads getenv self provider response model_config
       stream = Ok out ->
     (exists api_key, get_api_key getenv self provider = Ok api_key) /\
     (exists provider_config base_url,
        dict_get model_config "provider_config" = Some provider_config /\
        py_item provider_config "base_url" = Ok base_url) /\
     dict_mem model_config "id" = true) /\
  (forall e,
     get_api_key getenv self provider = Raise e ->
     call_provider json_loads getenv self provider response model_config
       stream = Raise e).
Proof.
  unfold call_provider. split.
  - intros out.
    destruct (get_api_key getenv self provider) as [api_key|]; cbn [bind];
      [|discriminate].
    cbn [py_item]. unfold dict_mem.
    destruct (dict_get model_config "provider_config") as [pc|]; cbn [bind];
      [|discriminate].
    destruct (py_item pc "base_url") as [url|] eqn:Hurl; cbn [bind];
      [|discriminate].
    destruct (dict_get model_config "id"); cbn [bind]; [|discriminate].
    intros _. split; [eauto|]. split; [|reflexivity].
    exists pc, url. split; [reflexivity | exact Hurl].
  - intros e ->. reflexivity.
Qed.

Lemma message_path_iff (data content : pyval) :
  (let* choices := py_item data "choices" in
   let* choice := py_item0 choices in
   let* message := py_item choice "message" in
   py_item message "content") = Ok content <->
  nested_message data = Some content.
Proof.
  unfold nested_message.
  destruct data as [| | | | | |top]; cbn [py_item bind];
    try (split; discriminate).
  destruct (dict_get top "choices")
    as [[| | | |[|? ?]|[|[| | | | | |choice] ?]|]|];
    cbn [bind py_item0 py_item]; try (split; discriminate).
  destruct (dict_get choice "message") as [[| | | | | |message]|];
    cbn [bind py_item]; try (split; discriminate).
  destruct (dict_get message "content"); split; congruence.
Qed.

Lemma message_content_iff (response : HttpResponse) (content : pyval) :
  message_content response = Ok content <->
  exists data, json response = Some data /\ nested_message data = Some content.
Proof.
  unfold message_content.
  destruct (json response) as [data|]; cbn [bind].
  - rewrite message_path_iff. split.
    + intros H. exists data. auto.
    + now intros [data' [[= <-] H]].
  - split; [discriminate | intros [data [H _]]; discriminate H].
Qed.

(** X13: a plain (non-streamed) call yields exactly one fragment, the
    content nested under choices[0].message of the decoded body. A body
    that does not decode or lacks that field is never turned into an empty
    fragment (as a streamed line is): the call raises. *)
Theorem plain_reply_one_fragment (self : ModelRouter) (provider : string)
  (response : HttpResponse) (model_config : pydict) :
  (forall out,
     call_provider json_loads getenv self provider response model_config
       false = Ok out ->
     exists data content,
       json response = Some data /\ nested_message data = Some content /\
       out = [content]) /\
  ((forall data, json response = Some data -> nested_message data = None) ->
   exists e,
     call_provider json_loads getenv self provider response model_config
       false = Raise e).
Proof.
  unfold call_provider. split.
  - intros out.
    destruct (get_api_key getenv self provider); cbn [bind]; [|discriminate].
    destruct (py_item (PDict model_config) "provider_config") as [pc|];
      cbn [bind]; [|discriminate].
    destruct (py_item pc "base_url"); cbn [bind]; [|discriminate].
    destruct (py_item (PDict model_config) "id"); cbn [bind]; [|discriminate].
    destruct (message_content response) as [content|] eqn:Hc; cbn [bind];
      [|discriminate].
    intros [= <-]. apply message_content_iff in Hc as [data [Hj Hn]]. eauto.
  - intros Habsent.
    destruct (get_api_key getenv self provider); cbn [bind]; [|eauto].
    destruct (py_item (PDict model_config) "provider_config") as [pc|];
      cbn [bind]; [|eauto].
    destruct (py_item pc "base_url"); cbn [bind]; [|eauto].
    destruct (py_item (PDict model_config) "id"); cbn [bind]; [|eauto].
    destruct (message_content response) as [content|] eqn:Hc; cbn [bind];
      [|eauto].
    apply message_content_iff in Hc as [data [Hj Hn]].
    rewrite (Habsent data Hj) in Hn. discriminate.
Qed.


End TransportMore.

Lemma api_key_from_environment_witness :
  get_api_key sample_getenv (router_moonshot_first true) "moonshot" =
  Ok "sk-sample".
Proof.
  eapply (proj1 (api_key_from_environment sample_getenv
                   (router_moonshot_first true) "moonshot" "MOONSHOT_API_KEY"
                   _ eq_refl eq_refl)).
  split; [reflexivity | discriminate].
Defined.

Lemma no_fragment_without_request_witness :
  call_provider sample_loads (fun _ => None) (router_moonshot_first true)
    "moonshot" {| aiter_lines := sample_lines; json := None |}
    [("id", PStr "kimi-k2.5")] true =
  Raise (ValueError "Missing API key: MOONSHOT_API_KEY").
Proof.
  apply (proj2 (no_fragment_without_request sample_loads (fun _ => None)
                  (router_moonshot_first true) "moonshot"
                  {| aiter_lines := sample_lines; json := None |}
                  [("id", PStr "kimi-k2.5")] true)).
  reflexivity.
Defined.

Lemma plain_reply_one_fragment_witness :
  exists data content,
    Some body_hello = Some data /\ nested_message data = Some content /\
    [PStr "Hello"] = [content].
Proof.
  apply (proj1 (plain_reply_one_fragment sample_loads sample_getenv
                  (router_moonshot_first true) "moonshot"
                  {| aiter_lines := []; json := Some body_hello |}
                  [("provider_config", moonshot_provider);
                   ("id", PStr "kimi-k2.5")])).
  reflexivity.
Defined.


(** ** From the catalog to the request *)

Section RequestFacts.

Variable getenv : string -> option string.



End RequestFacts.


(** ** Edge cases of the catalog *)

Section CatalogEdges.

Variable json_loads : string -> option pyval.
Variable getenv : string -> option string.

(** X16: an entry without an "id" can be selected but not called. The
    Moonshot branch matches the catalog key alone, so the lookup succeeds;
    the resolved configuration has no "id", and both transports raise on it
    for every reply, streamed or not. *)
Theorem entry_without_id_cannot_be_called (self : ModelRouter)
  (moonshot : pyval) (model_id : string) (entry : pydict) :
  dict_get (providers self) "moonshot" = Some moonshot ->
  dict_get (catalog moonshot) model_id = Some (PDict entry) ->
  dict_get entry "id" = None ->
  exists cfg,
    _get_model_config self model_id = Ok cfg /\
    dict_get cfg "id" = None /\
    forall response stream,
      (exists e, _call_moonshot json_loads getenv self response cfg stream =
                 Raise e) /\
      (exists e, _call_openrouter json_loads getenv self response cfg stream =
                 Raise e).
Proof.
  intros Hp Hentry Hid.
  exists (dict_update [("provider", PStr "moonshot");
                       ("provider_config", moonshot)] entry).
  assert (Hcfg : dict_get (dict_update [("provider", PStr "moonshot");
                                        ("provider_config", moonshot)] entry)
                          "id" = None)
    by now rewrite dict_get_update_absent.
  split.
  - unfold _get_model_config.
    now rewrite (check_moonshot_hit self moonshot model_id entry Hp Hentry).
  - split; [exact Hcfg|].
    intros response stream.
    unfold _call_moonshot, _call_openrouter, call_provider.
    split.
    + destruct (get_api_key getenv self "moonshot"); cbn [bind]; [|eauto].
      match goal with
      | |- context [py_item ?c "provider_config"] =>
          destruct (py_item c "provider_config") as [pc|]; cbn [bind]; [|eauto]
      end.
      destruct (py_item pc "base_url"); cbn [bind]; [|eauto].
      cbn [py_item]. rewrite Hcfg. cbn [bind]. eauto.
    + destruct (get_api_key getenv self "openrouter"); cbn [bind]; [|eauto].
      match goal with
      | |- context [py_item ?c "provider_config"] =>
          destruct (py_item c "provider_config") as [pc|]; cbn [bind]; [|eauto]
      end.
      destruct (py_item pc "base_url"); cbn [bind]; [|eauto].
      cbn [py_item]. rewrite Hcfg. cbn [bind]. eauto.
Qed.

End CatalogEdges.

Lemma entry_without_id_cannot_be_called_witness :
  exists cfg,
    _get_model_config router_without_id "draft" = Ok cfg /\
    dict_get cfg "id" = None /\
    forall response stream,
      (exists e, _call_moonshot sample_loads sample_getenv router_without_id
                   response cfg stream = Raise e) /\
      (exists e, _call_openrouter sample_loads sample_getenv router_without_id
                   response cfg stream = Raise e).
Proof.
  apply (entry_without_id_cannot_be_called sample_loads sample_getenv
           router_without_id entry_without_id "draft"
           [("max_tokens", PInt 1024)]); reflexivity.
Defined.

Lemma scan_openrouter_first_match (openrouter : pyval) (model_id key : string)
  (entry : pydict) (before after : pydict) :
  forallb (fun kv => is_dict (snd kv)) before = true ->
  existsb (entry_matches model_id) before = false ->
  entry_matches model_id (key, PDict entry) = true ->
  scan_openrouter openrouter model_id
    (before ++ (key, PDict entry) :: after)%list =
  Ok (Some (dict_update [("provider", PStr "openrouter");
                         ("provider_config", openrouter)] entry)).
Proof.
  unfold entry_matches. cbn [fst snd].
  induction before as [|[k config] before IH];
    cbn [forallb existsb app scan_openrouter fst snd].
  - intros _ _ Hmatch. cbn [py_get bind py_spread].
    replace (py_eq_str (match dict_get entry "id" with
                        | Some x => x
                        | None => PNone
                        end) model_id || (key =? model_id)) with true;
      [reflexivity|].
    symmetry. rewrite orb_comm.
    now destruct (dict_get entry "id").
  - intros Hall Hnone Hmatch.
    apply andb_prop in Hall as [Hd Hall].
    apply orb_false_elim in Hnone as [Hhead Hnone].
    destruct config as [| | | | | |e0]; try discriminate.
    cbn [py_get bind].
    replace (py_eq_str (match dict_get e0 "id" with
                        | Some x => x
                        | None => PNone
                        end) model_id || (k =? model_id)) with false.
    + now apply IH.
    + symmetry. rewrite orb_comm. now destruct (dict_get e0 "id").
Qed.

(** X17: among the entries of openrouter's catalog the first match wins.
    When moonshot does not register the identifier, the lookup returns the
    earliest entry, in catalog order, whose key or "id" equals it, even if a
    later entry matches as well. *)
Theorem openrouter_first_match_wins (self : ModelRouter)
  (openrouter : pyval) (model_id key : string) (entry : pydict)
  (before after : pydict) :
  registry_ok self = true ->
  match dict_get (providers self) "moonshot" with
  | Some moonshot => has_key moonshot model_id = false
  | None => True
  end ->
  dict_get (providers self) "openrouter" = Some openrouter ->
  catalog openrouter = (before ++ (key, PDict entry) :: after)%list ->
  existsb (entry_matches model_id) before = false ->
  entry_matches model_id (key, PDict entry) = true ->
  _get_model_config self model_id =
  Ok (dict_update [("provider", PStr "openrouter");
                   ("provider_config", openrouter)] entry).
Proof.
  intros Hok Hmoon Hp Hcat Hbefore Hmatch.
  unfold _get_model_config.
  rewrite (check_moonshot_miss self model_id Hok Hmoon). cbn [bind].
  unfold check_openrouter. rewrite Hp.
  unfold registry_ok in Hok. rewrite Hp in Hok.
  apply andb_prop in Hok as [_ Hok].
  unfold provider_ok in Hok. unfold catalog in Hcat.
  destruct openrouter as [| | | | | |fields]; try discriminate Hok.
  cbn [py_get bind].
  destruct (dict_get fields "models") as [[| | | | | |models]|];
    try discriminate Hok;
    try (now apply app_cons_not_nil in Hcat).
  cbn [py_items bind]. subst models.
  rewrite forallb_app in Hok. apply andb_prop in Hok as [Hok _].
  now rewrite (scan_openrouter_first_match _ _ _ _ _ _ Hok Hbefore Hmatch).
Qed.

Lemma openrouter_first_match_wins_witness :
  _get_model_config router_ambiguous "openai/gpt-4o" =
  Ok (dict_update [("provider", PStr "openrouter");
                   ("provider_config", openrouter_ambiguous)]
                  [("id", PStr "openai/gpt-4o")]).
Proof.
  apply (openrouter_first_match_wins router_ambiguous openrouter_ambiguous
           "openai/gpt-4o" "gpt" [("id", PStr "openai/gpt-4o")]
           [("claude-sonnet",
             PDict [("id", PStr "anthropic/claude-3.5-sonnet")])]
           [("openai/gpt-4o", PDict [("id", PStr "openai/gpt-4o-mini")])]);
    first [reflexivity | exact I].
Defined.
